(** * Kedro dataset adapters: [hdf5.H5pyDataSet] and [plotly.PlotlyDataSet]

    A shallow embedding of
    - [src/kedro/extras/datasets/hdf5/h5py_dataset.py] and
    - [src/kedro/extras/datasets/plotly/plotly_dataset.py]
    together with the properties the specification states about them.

    Both adapters are glue between the host framework and third-party
    libraries (h5py, plotly.express, fsspec).  The libraries are interfaces
    here (type classes); the adapters are written over them, statement by
    statement, in two small monads: [result] for code that may raise, and
    [prog] for code that also talks to the outside world (path resolver,
    filesystem, lock).  *)

From stdpp Require Import base option list strings gmap fin_maps.
From Stdlib Require Import Strings.Byte Strings.Ascii.

#[local] Set Warnings "-register-all".
#[local] Open Scope string_scope.

(* ===================================================================== *)
(** * Python values, keyword arguments, exceptions                        *)
(* ===================================================================== *)

(** The values that flow through the configuration dictionaries
    ([load_args], [save_args], [fs_args], [credentials], [plotly_args]). *)
Inductive pyval : Type :=
| PNone
| PBool (b : bool)
| PInt (z : Z)
| PStr (s : string)
| PTuple (l : list pyval)
| PDict (d : gmap string pyval).

(** A Python [Dict[str, Any]] and a [**kwargs] bundle. *)
Abbreviation kwargs := (gmap string pyval).
(** The unit of exchange with the filesystem. *)
Abbreviation RawBytes := (list byte).

#[global] Instance byte_eq_dec : EqDecision byte := Byte.byte_eq_dec.

Inductive exn_class : Type :=
| AttributeError
| TypeError
| ValueError
| OSError
| DataSetError
| VersionNotFoundError.

#[global] Instance exn_class_eq_dec : EqDecision exn_class.
Proof. solve_decision. Defined.

Record exn : Type := Exn { exn_cls : exn_class; exn_msg : string }.

(** [class VersionNotFoundError(DataSetError)]: the only subclass relation
    among the exception classes used here. *)
Definition issubclass (c parent : exn_class) : bool :=
  match c, parent with
  | VersionNotFoundError, DataSetError => true
  | _, _ => bool_decide (c = parent)
  end.

Definition isinstance (e : exn) (c : exn_class) : bool := issubclass (exn_cls e) c.

(** ** Code that may raise *)

Inductive result (A : Type) : Type :=
| Ok (a : A)
| Err (e : exn).
Arguments Ok {A} a.
Arguments Err {A} e.

#[global] Instance result_ret : MRet result := @Ok.
#[global] Instance result_bind : MBind result :=
  λ A B f m, match m with Ok a => f a | Err e => Err e end.
#[global] Instance result_fmap : FMap result :=
  λ A B f m, match m with Ok a => Ok (f a) | Err e => Err e end.

(** ** Dictionary operations, as Python has them *)

(** [d.pop(key, default)]: the value and the dictionary without the key. *)
Definition dict_pop (key : string) (dflt : pyval) (d : kwargs) : pyval * kwargs :=
  (default dflt (d !! key), delete key d).

(** [d.setdefault(key, value)] on the dictionary itself. *)
Definition dict_setdefault (key : string) (v : pyval) (d : kwargs) : kwargs :=
  match d !! key with
  | Some _ => d
  | None => <[key := v]> d
  end.

(** [d.update(other)]: the keys of [other] win. *)
Definition dict_update (d other : kwargs) : kwargs := other ∪ d.

(** [v.setdefault(key, value)] on an arbitrary value: only a dict has the
    method. *)
Definition py_setdefault (key : string) (v : pyval) (target : pyval) : result kwargs :=
  match target with
  | PDict d => Ok (dict_setdefault key v d)
  | _ => Err (Exn AttributeError "object has no attribute 'setdefault'")
  end.

(** [**v] in a call: [v] must be a mapping. *)
Definition unpack_kwargs (v : pyval) : result kwargs :=
  match v with
  | PDict d => Ok d
  | _ => Err (Exn TypeError "argument after ** must be a mapping")
  end.

(** A call [f( **a, **b )]: a key given twice is a [TypeError]. *)
Definition merge_kwargs (a b : kwargs) : result kwargs :=
  if decide (a ##ₘ b) then Ok (a ∪ b)
  else Err (Exn TypeError "got multiple values for keyword argument").

(** [kedro.io.core.Version], a named tuple [(load, save)]. *)
Record Version : Type := mkVersion { load : option string; save : option string }.

Definition py_of_optstr (o : option string) : pyval :=
  match o with Some s => PStr s | None => PNone end.

Definition py_of_version (v : option Version) : pyval :=
  match v with
  | Some v => PTuple [py_of_optstr (load v); py_of_optstr (save v)]
  | None => PNone
  end.

(* ===================================================================== *)
(** * Code that talks to the outside world                                *)
(* ===================================================================== *)

(** A filesystem object: [fsspec.filesystem(protocol, **storage_options)]. *)
Record filesystem : Type :=
  mkFs { fs_protocol : string; fs_storage_options : kwargs }.

(** An open byte stream of a filesystem. *)
Definition stream : Type := nat.

Inductive lock : Type :=
| ClassLock (cls attr : string)
| InstanceLock (cls attr : string) (instance : nat).

(** The two entry points into the h5py library made by [H5pyDataSet]. *)
Inductive h5call : Type := FromBinary | ToBinary.

(** What an adapter asks of its collaborators. *)
Inductive event : Type :=
| GetLoadPath (filepath : string) (version : option Version)
| GetSavePath (filepath : string) (version : option Version)
| FsOpen (fs : filesystem) (path : string) (open_args : kwargs)
| FsRead (f : stream)
| FsWrite (f : stream) (data : RawBytes)
| FsClose (f : stream)
| FsExists (fs : filesystem) (path : string)
| FsInvalidateCache (fs : filesystem) (path : string)
| LockAcquire (l : lock)
| LockRelease (l : lock)
| H5Library (c : h5call)
| PxInvoke (attr : pyval).

(** What the collaborator answers. *)
Definition resp (ev : event) : Type :=
  match ev with
  | GetLoadPath _ _ | GetSavePath _ _ => result string
  | FsOpen _ _ _ => result stream
  | FsRead _ => result RawBytes
  | FsWrite _ _ | FsClose _ | FsInvalidateCache _ _ => result unit
  | FsExists _ _ => result bool
  | LockAcquire _ | LockRelease _ | H5Library _ | PxInvoke _ => unit
  end.

Inductive prog (A : Type) : Type :=
| Ret (a : A)
| Raise (e : exn)
| Vis (ev : event) (k : resp ev → prog A).
Arguments Ret {A} a.
Arguments Raise {A} e.
Arguments Vis {A} ev k.

Fixpoint prog_bind_def {A B : Type} (f : A → prog B) (p : prog A) : prog B :=
  match p with
  | Ret a => f a
  | Raise e => Raise e
  | Vis ev k => Vis ev (λ r, prog_bind_def f (k r))
  end.

#[global] Instance prog_ret : MRet prog := @Ret.
#[global] Instance prog_bind : MBind prog := @prog_bind_def.

Definition of_result {A : Type} (r : result A) : prog A :=
  match r with Ok a => Ret a | Err e => Raise e end.

(** [try: body finally: cleanup], which is what leaving a [with] block
    does: the cleanup runs on both exits, and an exception of the cleanup
    replaces the outcome of the body. *)
Fixpoint finally_ {A : Type} (body : prog A) (cleanup : prog unit) : prog A :=
  match body with
  | Ret a => _ ← cleanup; Ret a
  | Raise e => _ ← cleanup; Raise e
  | Vis ev k => Vis ev (λ r, finally_ (k r) cleanup)
  end.

(** [try: body except cls: handler]. *)
Fixpoint try_except {A : Type} (body : prog A) (cls : exn_class) (handler : prog A) : prog A :=
  match body with
  | Ret a => Ret a
  | Raise e => if isinstance e cls then handler else Raise e
  | Vis ev k => Vis ev (λ r, try_except (k r) cls handler)
  end.

Definition get_load_path (filepath : string) (v : option Version) : prog string :=
  Vis (GetLoadPath filepath v) of_result.
Definition get_save_path (filepath : string) (v : option Version) : prog string :=
  Vis (GetSavePath filepath v) of_result.
Definition fs_open (fs : filesystem) (path : string) (open_args : kwargs) : prog stream :=
  Vis (FsOpen fs path open_args) of_result.
Definition fs_read (f : stream) : prog RawBytes := Vis (FsRead f) of_result.
Definition fs_write (f : stream) (data : RawBytes) : prog unit := Vis (FsWrite f data) of_result.
Definition fs_close (f : stream) : prog unit := Vis (FsClose f) of_result.
Definition fs_exists (fs : filesystem) (path : string) : prog bool :=
  Vis (FsExists fs path) of_result.
Definition fs_invalidate_cache (fs : filesystem) (path : string) : prog unit :=
  Vis (FsInvalidateCache fs path) of_result.

(** The call [fs.open(path, **open_args)]: [path] is the first parameter,
    so giving it again by keyword is a [TypeError] before the filesystem is
    asked.  (A [self] keyword clashes in the same way; it is left out
    here, and excluded by hypothesis in the statements that name it.) *)
Definition call_open (fs : filesystem) (path : string) (open_args : kwargs) : prog stream :=
  if decide (is_Some (open_args !! "path")) then
    Raise (Exn TypeError "open() got multiple values for argument 'path'")
  else fs_open fs path open_args.

(** [with fs.open(path, **open_args) as fs_file: body]. *)
Definition with_open {A : Type} (fs : filesystem) (path : string) (open_args : kwargs)
    (body : stream → prog A) : prog A :=
  fs_file ← call_open fs path open_args;
  finally_ (body fs_file) (fs_close fs_file).

(** [with l: body]. *)
Definition with_lock {A : Type} (l : lock) (body : prog A) : prog A :=
  Vis (LockAcquire l) (λ _, finally_ body (Vis (LockRelease l) Ret)).

(** A call into the h5py library: marked in the trace, then its outcome. *)
Definition h5py_call {A : Type} (c : h5call) (r : result A) : prog A :=
  Vis (H5Library c) (λ _, of_result r).

(** ** Running a program against its collaborators *)

(** The collaborators as one state machine: it answers every event. *)
Record handler (S : Type) : Type := Handler { respond : ∀ ev : event, S → resp ev * S }.
Arguments Handler {S} respond.
Arguments respond {S} h ev s.

(** The events in order, the outcome, and the collaborators' final state. *)
Fixpoint run {S A : Type} (h : handler S) (p : prog A) (s : S) : list event * result A * S :=
  match p with
  | Ret a => ([], Ok a, s)
  | Raise e => ([], Err e, s)
  | Vis ev k =>
      let '(r, s1) := respond h ev s in
      let '(t, o, s2) := run h (k r) s1 in
      (ev :: t, o, s2)
  end.

Definition trace_of {S A : Type} (x : list event * result A * S) : list event := x.1.1.
Definition outcome_of {S A : Type} (x : list event * result A * S) : result A := x.1.2.
Definition state_of {S A : Type} (x : list event * result A * S) : S := x.2.

(* ===================================================================== *)
(** * The collaborators' interfaces                                       *)
(* ===================================================================== *)

(** ** kedro.io.core and pathlib

    [get_protocol_and_path], [get_filepath_str] and [PurePosixPath] are
    imported by the adapter, not defined by it: they are string functions
    taken as given. *)
Class KedroCore : Type := {
  get_protocol_and_path : string → option Version → result (string * string);
  get_filepath_str : string → string → string;
  PurePosixPath : string → string;
}.

(** Modelled from the spec: [AbstractVersionedDataSet.__init__] of
    [kedro.io.core], the parent constructor, which is not among the sources.
    The specification's path and version resolver works from a configured
    location and an optional version descriptor: the constructor keeps the
    two, as the attributes [_filepath] and [_version] that [_describe],
    [_load], [_save] and [_invalidate_cache] read.  (The [exists] and [glob]
    functions it is also given serve the resolver, which is an event
    here.) *)
Definition AbstractVersionedDataSet__init__ (filepath : string) (version : option Version)
    : string * option Version :=
  (filepath, version).

(** ** fsspec

    [fsspec.filesystem(protocol, **storage_options)] builds the filesystem
    object or raises (unknown protocol, rejected option). *)
Class Fsspec : Type := {
  filesystem_rejects : string → kwargs → option exn;
}.

Definition fsspec_filesystem `{Fsspec} (protocol : string) (storage_options : kwargs)
    : result filesystem :=
  match filesystem_rejects protocol storage_options with
  | Some e => Err e
  | None => Ok (mkFs protocol storage_options)
  end.

(** The call [fsspec.filesystem(protocol, **credentials, **fs_args)]: a key
    given in both mappings, or the key of the first parameter, is a
    [TypeError] before the library runs. *)
Definition call_filesystem `{Fsspec} (protocol : string) (credentials fs_args : kwargs)
    : result filesystem :=
  storage_options ← merge_kwargs credentials fs_args;
  if decide (is_Some (storage_options !! "protocol")) then
    Err (Exn TypeError "filesystem() got multiple values for argument 'protocol'")
  else fsspec_filesystem protocol storage_options.

(** ** h5py *)

(** A file-access property list, [h5py.h5p.create(h5py.h5p.FILE_ACCESS)],
    with the two settings the adapter makes. *)
Record fapl : Type := mkFapl {
  fapl_core_backing_store : option bool;
  fapl_file_image : option RawBytes;
}.

Definition h5p_create_FILE_ACCESS : fapl := mkFapl None None.
Definition set_fapl_core (backing_store : bool) (p : fapl) : fapl :=
  mkFapl (Some backing_store) (fapl_file_image p).
(** [fapl.set_file_image(image)]: the image becomes the initial content
    of the file to open.  An empty buffer is no image: the call raises
    [ValueError] and the property list is left as it was. *)
Definition set_file_image (image : RawBytes) (p : fapl) : result fapl :=
  match image with
  | [] => Err (Exn ValueError "Can't set file image (empty buffer)")
  | _ :: _ => Ok (mkFapl (fapl_core_backing_store p) (Some image))
  end.

Inductive acc_flags : Type := ACC_RDONLY | ACC_RDWR | ACC_TRUNC.

(** The keyword arguments of [Group.copy]; all default to [False]. *)
Record copy_flags : Type := mkCopyFlags {
  shallow : bool;
  expand_soft : bool;
  expand_external : bool;
  expand_refs : bool;
  without_attrs : bool;
}.

(** What [h5py.File] is opened on: a low-level file id, or a new
    [BytesIO()] buffer. *)
Inductive file_source (file_id : Type) : Type :=
| FromFileId (fid : file_id)
| FromBytesIO.
Arguments FromFileId {file_id} fid.
Arguments FromBytesIO {file_id}.

Class H5py : Type := {
  (** low-level file identifiers, [h5py.File] handles, and the group and
      dataset objects a handle yields *)
  file_id : Type;
  h5file : Type;
  h5obj : Type;
  (** [next(tempfile._get_candidate_names())]: some fresh name *)
  candidate_name : string;
  (** [h5py.h5f.open(name=, flags=, fapl=)] *)
  h5f_open : RawBytes → acc_flags → fapl → result file_id;
  (** [h5py.File(source, **kwds)] *)
  File : file_source file_id → kwargs → result h5file;
  (** [h5f.items()] *)
  items : h5file → list (string * h5obj);
  (** [h5f.copy(value, dest, **flags)]: the destination after the copy *)
  copy : h5file → h5obj → h5file → copy_flags → result h5file;
  (** [biof.close()] then [bio.getvalue()]: the bytes behind a handle
      opened on a [BytesIO] *)
  getvalue : h5file → RawBytes;
}.

(** Binding the arguments of [h5py.File(source, mode, **kwds)]: the first
    two parameters are [name] and [mode]; giving either again by keyword
    is a [TypeError] before the library runs. *)
Definition call_File `{H5py} (source : file_source file_id) (mode : option string)
    (kwds : kwargs) : result h5file :=
  if decide (is_Some (kwds !! "name")) then
    Err (Exn TypeError "File() got multiple values for argument 'name'")
  else match mode with
  | None => File source kwds
  | Some m =>
      if decide (is_Some (kwds !! "mode")) then
        Err (Exn TypeError "File() got multiple values for argument 'mode'")
      else File source (<["mode" := PStr m]> kwds)
  end.

(** ** plotly *)

(** A figure: its traces and its layout properties. *)
Record Figure : Type := mkFigure { fig_data : list pyval; fig_layout : kwargs }.

(** Tabular input: named columns. *)
Abbreviation DataFrame := (list (string * list pyval)).

(** What an attribute of the module [plotly.express] can be: a chart
    constructor ([bar], [line], [scatter], ...), another callable, or a
    value that cannot be called (a submodule, a constant). *)
Inductive px_attr : Type :=
| ChartConstructor (f : DataFrame → kwargs → result Figure)
| OtherCallable (f : DataFrame → kwargs → result pyval)
| NotCallable (v : pyval).

(** What a call of such an attribute returns. *)
Inductive pyobj : Type :=
| ObjFigure (fig : Figure)
| ObjOther (v : pyval).

Class Plotly : Type := {
  (** the namespace of [plotly.express] *)
  px : string → option px_attr;
  (** [fig.update_layout(dict1, **kwargs)] *)
  update_layout : Figure → pyval → kwargs → result Figure;
}.

(** ** plotly.JSONDataSet, the parent class of [PlotlyDataSet]

    [from .json_dataset import JSONDataSet]: the class is imported, and
    [PlotlyDataSet] reaches it through [super()] only.  Its constructor and
    the two methods called are taken as given. *)
Class JSONDataSet : Type := {
  json_instance : Type;
  JSONDataSet__init__ :
    string → option kwargs → option kwargs → option Version →
    option kwargs → option kwargs → result json_instance;
  JSONDataSet_describe : json_instance → kwargs;
  JSONDataSet_save : json_instance → Figure → prog unit;
}.

(* ===================================================================== *)
(** * hdf5.H5pyDataSet                                                    *)
(* ===================================================================== *)

Module H5pyDataSet.
Section Code.
Context `{KedroCore} `{Fsspec} `{H5py}.

(** [_lock = Lock()], a class attribute shared by all the instances. *)
Definition _lock : lock := ClassLock "H5pyDataSet" "_lock".
Definition DEFAULT_LOAD_ARGS : kwargs := ∅.
Definition DEFAULT_SAVE_ARGS : kwargs := ∅.

(** The attributes [__init__] sets. *)
Record instance : Type := mkInstance {
  _protocol : string;
  _fs : filesystem;
  _filepath : string;
  _version : option Version;
  _load_args : kwargs;
  _save_args : kwargs;
  _fs_open_args_load : pyval;
  _fs_open_args_save : kwargs;
}.

Definition h5_file_args : kwargs :=
  {[ "backing_store" := PBool false; "driver" := PStr "core"; "mode" := PStr "r" ]}.

Definition __h5py_from_binary (binary : RawBytes) (load_args : kwargs) : result h5file :=
  let file_access_property_list := h5p_create_FILE_ACCESS in
  let file_access_property_list := set_fapl_core false file_access_property_list in
  file_access_property_list ← set_file_image binary file_access_property_list;
  file_id ← h5f_open (String.list_byte_of_string candidate_name) ACC_RDONLY file_access_property_list;
  kwds ← merge_kwargs h5_file_args load_args;
  call_File (FromFileId file_id) None kwds.

(** The flags of the one [copy] call in the source. *)
Definition expand_all : copy_flags := mkCopyFlags false true true true false.

(** [for _, value in h5f.items(): h5f.copy(value, biof, ...)]. *)
Fixpoint copy_items (h5f : h5file) (its : list (string * h5obj)) (biof : h5file)
    : result h5file :=
  match its with
  | [] => Ok biof
  | (_, value) :: rest =>
      biof ← copy h5f value biof expand_all;
      copy_items h5f rest biof
  end.

Definition __h5py_to_binary (h5f : h5file) (save_args : kwargs) : result RawBytes :=
  biof ← call_File FromBytesIO (Some "w") save_args;
  biof ← copy_items h5f (items h5f) biof;
  Ok (getvalue biof).

Definition __init__ (filepath : string) (load_args save_args : option kwargs)
    (version : option Version) (credentials fs_args : option kwargs) : result instance :=
  let _fs_args := default ∅ fs_args in
  let '(_fs_open_args_load, _fs_args) := dict_pop "open_args_load" (PDict ∅) _fs_args in
  let '(_fs_open_args_save, _fs_args) := dict_pop "open_args_save" (PDict ∅) _fs_args in
  let _credentials := default ∅ credentials in
  '(protocol, path) ← get_protocol_and_path filepath version;
  let _fs_args :=
    if decide (protocol = "file") then dict_setdefault "auto_mkdir" (PBool true) _fs_args
    else _fs_args in
  fs ← call_filesystem protocol _credentials _fs_args;
  let '(kept_filepath, kept_version) :=
    AbstractVersionedDataSet__init__ (PurePosixPath path) version in
  let _load_args := DEFAULT_LOAD_ARGS in
  let _load_args :=
    match load_args with Some a => dict_update _load_args a | None => _load_args end in
  let _save_args := DEFAULT_SAVE_ARGS in
  let _save_args :=
    match save_args with Some a => dict_update _save_args a | None => _save_args end in
  _fs_open_args_save ← py_setdefault "mode" (PStr "wb") _fs_open_args_save;
  Ok {| _protocol := protocol;
        _fs := fs;
        _filepath := kept_filepath;
        _version := kept_version;
        _load_args := _load_args;
        _save_args := _save_args;
        _fs_open_args_load := _fs_open_args_load;
        _fs_open_args_save := _fs_open_args_save |}.

Definition _describe (self : instance) : kwargs :=
  {[ "filepath" := PStr (_filepath self);
     "protocol" := PStr (_protocol self);
     "load_args" := PDict (_load_args self);
     "save_args" := PDict (_save_args self);
     "version" := py_of_version (_version self) ]}.

Definition _invalidate_cache (self : instance) : prog unit :=
  let filepath := get_filepath_str (_filepath self) (_protocol self) in
  fs_invalidate_cache (_fs self) filepath.

Definition _load (self : instance) : prog h5file :=
  p ← get_load_path (_filepath self) (_version self);
  let load_path := get_filepath_str p (_protocol self) in
  open_args ← of_result (unpack_kwargs (_fs_open_args_load self));
  binary_data ← with_open (_fs self) load_path open_args (λ fs_file, fs_read fs_file);
  with_lock _lock
    (h5py_call FromBinary (__h5py_from_binary binary_data (_load_args self))).

Definition _save (self : instance) (data : h5file) : prog unit :=
  p ← get_save_path (_filepath self) (_version self);
  let save_path := get_filepath_str p (_protocol self) in
  binary_data ← with_lock _lock
    (h5py_call ToBinary (__h5py_to_binary data (_save_args self)));
  with_open (_fs self) save_path (_fs_open_args_save self)
    (λ fs_file, fs_write fs_file binary_data);;
  _invalidate_cache self.

Definition _exists (self : instance) : prog bool :=
  r ← try_except
        (p ← get_load_path (_filepath self) (_version self);
         Ret (Some (get_filepath_str p (_protocol self))))
        DataSetError
        (Ret None);
  match r with
  | None => Ret false
  | Some load_path => fs_exists (_fs self) load_path
  end.

(** [super()._release()] is the parent's, taken as given; then the cache
    of the filesystem is invalidated. *)
Definition _release (super_release : prog unit) (self : instance) : prog unit :=
  super_release;;
  _invalidate_cache self.

End Code.
End H5pyDataSet.

(* ===================================================================== *)
(** * plotly.PlotlyDataSet                                                *)
(* ===================================================================== *)

Module PlotlyDataSet.
Section Code.
Context `{Plotly} `{JSONDataSet}.

Record instance : Type := mkInstance {
  (** the part of the object the parent class initialised *)
  super : json_instance;
  _plotly_args : kwargs;
}.

Definition __init__ (filepath : string) (plotly_args : kwargs)
    (load_args save_args : option kwargs) (version : option Version)
    (credentials fs_args : option kwargs) : result instance :=
  base ← JSONDataSet__init__ filepath load_args save_args version credentials fs_args;
  Ok {| super := base; _plotly_args := plotly_args |}.

Definition _describe (self : instance) : kwargs :=
  <["plotly_args" := PDict (_plotly_args self)]> (JSONDataSet_describe (super self)).

(** [getattr(px, plot_type)]. *)
Definition getattr_px (plot_type : pyval) : result px_attr :=
  match plot_type with
  | PStr name =>
      match px name with
      | Some a => Ok a
      | None => Err (Exn AttributeError "module 'plotly.express' has no attribute")
      end
  | _ => Err (Exn TypeError "getattr(): attribute name must be string")
  end.

(** The call [attr(data, **fig_params)]. *)
Definition call_px (plot_type : pyval) (attr : px_attr) (data : DataFrame) (kwds : kwargs)
    : prog pyobj :=
  match attr with
  | ChartConstructor f => Vis (PxInvoke plot_type) (λ _, of_result (ObjFigure <$> f data kwds))
  | OtherCallable f => Vis (PxInvoke plot_type) (λ _, of_result (ObjOther <$> f data kwds))
  | NotCallable _ => Raise (Exn TypeError "object is not callable")
  end.

(** The method call [fig.update_layout(dict1, **kwargs)] on whatever the
    call returned. *)
Definition call_update_layout (fig : pyobj) (dict1 : pyval) (kwds : kwargs) : result Figure :=
  match fig with
  | ObjFigure fig => update_layout fig dict1 kwds
  | ObjOther _ => Err (Exn AttributeError "object has no attribute 'update_layout'")
  end.

Definition _plot_dataframe (self : instance) (data : DataFrame) : prog Figure :=
  let plot_type := default PNone (_plotly_args self !! "type") in
  let fig_params := default (PDict ∅) (_plotly_args self !! "fig") in
  attr ← of_result (getattr_px plot_type);
  kwds ← of_result (unpack_kwargs fig_params);
  fig ← call_px plot_type attr data kwds;
  fig ← of_result (call_update_layout fig PNone
           {[ "template" := default (PStr "plotly") (_plotly_args self !! "theme") ]});
  fig ← of_result (update_layout fig (default (PDict ∅) (_plotly_args self !! "layout")) ∅);
  Ret fig.

Definition _save (self : instance) (data : DataFrame) : prog unit :=
  fig ← _plot_dataframe self data;
  JSONDataSet_save (super self) fig.

End Code.
End PlotlyDataSet.

(* ===================================================================== *)
(** * What the libraries promise                                          *)
(* ===================================================================== *)

(** ** h5py: what can be observed of handles, and the library's contract *)

Class H5pyView `{H5py} : Type := {
  (** the raw content found under an object, links followed *)
  content : Type;
  (** the last component of [value.name]: the name of the object itself.
      For an entry that is a link it is the name of the target, which
      need not be the key the entry is listed under. *)
  obj_name : h5obj → string;
  obj_content : h5obj → content;
  (** no link or reference of the container leaves it *)
  self_contained : h5file → Prop;
}.

(** The top-level named entries of a handle with their raw content. *)
Definition entries `{H5pyView} (h : h5file) : list (string * content) :=
  map (λ kv, (kv.1, obj_content kv.2)) (items h).

(** Every top-level object of the handle goes by the key it is listed
    under: no top-level entry is a link to an object of another name. *)
Definition listed_by_own_name `{H5pyView} (h : h5file) : Prop :=
  Forall (λ kv, obj_name kv.2 = kv.1) (items h).

(** A flag set that expands soft links, external links and references. *)
Definition expands_everything (fl : copy_flags) : Prop :=
  expand_soft fl = true ∧ expand_external fl = true ∧ expand_refs fl = true.

(** The handles written through a [BytesIO]: a new file, then copies. *)
Inductive bio_file `{H5py} : h5file → Prop :=
| bio_new kwds c : File FromBytesIO kwds = Ok c → bio_file c
| bio_copy src value c fl c' : bio_file c → copy src value c fl = Ok c' → bio_file c'.

(** The in-memory property list of a file image [b]: the core driver
    without a backing store, and the image. *)
Definition image_fapl (b : RawBytes) : fapl := mkFapl (Some false) (Some b).

(** What a new file and [Group.copy] promise. *)
Class H5pyCopyLaws `{H5pyView} : Prop := {
  (** a new file on a [BytesIO] is empty *)
  create_empty : ∀ kwds c,
    File FromBytesIO kwds = Ok c → entries c = [] ∧ self_contained c;
  (** a copy given no [name], with every expansion on, adds the object
      under its own name, with its content, and leaves the rest alone
      (the order in which a file lists its entries is the library's
      business) *)
  copy_entry : ∀ src value dst fl dst',
    copy src value dst fl = Ok dst' → expands_everything fl →
    entries dst' ≡ₚ (entries dst ++ [(obj_name value, obj_content value)])%list;
  copy_self_contained : ∀ src value dst fl dst',
    copy src value dst fl = Ok dst' → expands_everything fl →
    self_contained dst → self_contained dst';
}.

(** What the library promises of the bytes written through a [BytesIO]:
    they are a file image, which opens again read-only on the core driver
    without a backing store, and shows what was written. *)
Class H5pyReopenLaws `{H5pyView} : Prop := {
  reopen : ∀ c name,
    bio_file c →
    getvalue c ≠ []
    ∧ ∃ fid, h5f_open name ACC_RDONLY (image_fapl (getvalue c)) = Ok fid
         ∧ (∃ h, File (FromFileId fid)
                   {[ "backing_store" := PBool false; "driver" := PStr "core";
                      "mode" := PStr "r" ]} = Ok h)
         ∧ (∀ kwds h, File (FromFileId fid) kwds = Ok h → entries h ≡ₚ entries c);
}.

(** ** plotly: the contract of [update_layout] *)

(** The properties a first argument of [update_layout] sets. *)
Definition layout_updates (dict1 : pyval) : option kwargs :=
  match dict1 with
  | PNone => Some ∅
  | PDict d => Some d
  | _ => None
  end.

Class PlotlyLaws `{Plotly} : Prop := {
  (** when [update_layout] returns, the properties given are set, keyword
      arguments after [dict1], every other property is as before, and the
      traces are untouched *)
  update_layout_sets : ∀ fig dict1 kwds fig',
    update_layout fig dict1 kwds = Ok fig' →
    ∃ d, layout_updates dict1 = Some d
       ∧ fig_data fig' = fig_data fig
       ∧ fig_layout fig' = kwds ∪ (d ∪ fig_layout fig);
}.

(* ===================================================================== *)
(** * A small concrete instance of every collaborator                     *)
(* ===================================================================== *)

(** Small enough to run: a short path parser, a one-byte-per-field
    container format, three chart constructors, and an in-memory
    filesystem.  The general theorems below are stated over the interfaces;
    this instance shows that their assumptions can be met, and runs the
    adapters end to end. *)
Module Sample.

Definition strip_prefix (p s : string) : option string :=
  if String.prefix p s
  then Some (String.substring (String.length p) (String.length s - String.length p) s)
  else None.

#[export] Instance core : KedroCore := {|
  get_protocol_and_path filepath version :=
    match strip_prefix "s3://" filepath, strip_prefix "http://" filepath with
    | Some rest, _ => Ok ("s3", rest)
    | None, Some rest =>
        match version with
        | Some _ => Err (Exn DataSetError "HTTP(s) DataSet doesn't support versioning")
        | None => Ok ("http", rest)
        end
    | None, None => Ok ("file", filepath)
    end;
  get_filepath_str path protocol :=
    if decide (protocol = "http") then protocol ++ "://" ++ path else path;
  PurePosixPath path := path;
|}.

#[export] Instance fsspec : Fsspec := {|
  filesystem_rejects protocol _ :=
    if decide (protocol ∈ ["file"; "s3"; "http"]) then None
    else Some (Exn ValueError "Protocol not known");
|}.

(** ** A toy container library *)

(** An object: a one-byte name, a one-byte payload, and whether the
    payload still lives in another file (an external link). *)
Record toy_obj : Type := mkToy { t_name : byte; t_raw : byte; t_external : bool }.

#[export] Instance toy_obj_eq_dec : EqDecision toy_obj.
Proof. solve_decision. Defined.

Definition toy_name (o : toy_obj) : string := String (ascii_of_byte (t_name o)) EmptyString.

Definition toy_magic : RawBytes := [x89; x48; x44; x46].

Fixpoint toy_dump (c : list toy_obj) : RawBytes :=
  match c with
  | [] => []
  | o :: rest => t_name o :: t_raw o :: (if t_external o then x01 else x00) :: toy_dump rest
  end.

Fixpoint toy_parse (b : RawBytes) : option (list toy_obj) :=
  match b with
  | [] => Some []
  | n :: r :: x00 :: rest => cons (mkToy n r false) <$> toy_parse rest
  | n :: r :: x01 :: rest => cons (mkToy n r true) <$> toy_parse rest
  | _ => None
  end.

(** A container image: the magic number, then the objects, no name twice. *)
Definition toy_read (b : RawBytes) : option (list toy_obj) :=
  match b with
  | m1 :: m2 :: m3 :: m4 :: body =>
      if decide ([m1; m2; m3; m4] = toy_magic) then
        c ← toy_parse body;
        if decide (NoDup (t_name <$> c)) then Some c else None
      else None
  | _ => None
  end.

Definition toy_file_kwds : gset string :=
  {[ "mode"; "driver"; "backing_store"; "libver"; "rdcc_nbytes" ]}.

Definition toy_copy (o : toy_obj) (dst : list toy_obj) (fl : copy_flags)
    : result (list toy_obj) :=
  if decide (t_name o ∈ (t_name <$> dst)) then
    Err (Exn ValueError "Destination object already exists")
  else Ok (dst ++ [mkToy (t_name o) (t_raw o) (t_external o && negb (expand_external fl))])%list.

#[export] Instance h5py : H5py := {|
  file_id := list toy_obj;
  h5file := list toy_obj;
  h5obj := toy_obj;
  candidate_name := "k3q0a1xz";
  h5f_open _ _ p :=
    match fapl_core_backing_store p, fapl_file_image p with
    | Some _, Some b =>
        match toy_read b with
        | Some c => Ok c
        | None => Err (Exn OSError "Unable to open file (file signature not found)")
        end
    | _, _ => Err (Exn OSError "Unable to open file (no such file)")
    end;
  File source kwds :=
    if decide (dom kwds ⊆ toy_file_kwds) then
      match source with
      | FromFileId fid => Ok fid
      | FromBytesIO => Ok []
      end
    else Err (Exn TypeError "File() got an unexpected keyword argument");
  items h := (λ o, (toy_name o, o)) <$> h;
  copy _ value dst fl := toy_copy value dst fl;
  getvalue c := (toy_magic ++ toy_dump c)%list;
|}.

#[export] Instance h5py_view : H5pyView := {|
  content := byte;
  obj_name := toy_name;
  obj_content := t_raw;
  self_contained c := Forall (λ o, t_external o = false) (c : list toy_obj);
|}.


(** ** A toy container library with links *)

(** A top-level entry of a container with links: the one-byte key it is
    listed under, and the object found behind it, with the one-byte name
    the object itself goes by and its payload.  The two names are the same
    for an object stored at the top level, and differ for a link to an
    object stored elsewhere under another name. *)
Record linked_obj : Type := mkLinked { l_key : byte; l_name : byte; l_raw : byte }.

#[export] Instance linked_obj_eq_dec : EqDecision linked_obj.
Proof. solve_decision. Defined.

Definition byte_name (b : byte) : string := String (ascii_of_byte b) EmptyString.

Fixpoint linked_dump (c : list linked_obj) : RawBytes :=
  match c with
  | [] => []
  | o :: rest => l_key o :: l_name o :: l_raw o :: linked_dump rest
  end.

Fixpoint linked_parse (b : RawBytes) : option (list linked_obj) :=
  match b with
  | [] => Some []
  | k :: n :: r :: rest => cons (mkLinked k n r) <$> linked_parse rest
  | _ => None
  end.

(** A container image: the magic number, then the entries, no key twice. *)
Definition linked_read (b : RawBytes) : option (list linked_obj) :=
  match b with
  | m1 :: m2 :: m3 :: m4 :: body =>
      if decide ([m1; m2; m3; m4] = toy_magic) then
        c ← linked_parse body;
        if decide (NoDup (l_key <$> c)) then Some c else None
      else None
  | _ => None
  end.

(** [Group.copy] given no [name]: the copy is a plain object of the
    destination, listed there under the name of the object copied. *)
Definition linked_copy (o : linked_obj) (dst : list linked_obj) : result (list linked_obj) :=
  if decide (l_name o ∈ (l_key <$> dst)) then
    Err (Exn ValueError "Destination object already exists")
  else Ok (dst ++ [mkLinked (l_name o) (l_name o) (l_raw o)])%list.

Definition linked_h5py : H5py := {|
  file_id := list linked_obj;
  h5file := list linked_obj;
  h5obj := linked_obj;
  candidate_name := "k3q0a1xz";
  h5f_open _ _ p :=
    match fapl_core_backing_store p, fapl_file_image p with
    | Some _, Some b =>
        match linked_read b with
        | Some c => Ok c
        | None => Err (Exn OSError "Unable to open file (file signature not found)")
        end
    | _, _ => Err (Exn OSError "Unable to open file (no such file)")
    end;
  File source kwds :=
    if decide (dom kwds ⊆ toy_file_kwds) then
      match source with
      | FromFileId fid => Ok fid
      | FromBytesIO => Ok []
      end
    else Err (Exn TypeError "File() got an unexpected keyword argument");
  items h := (λ o, (byte_name (l_key o), o)) <$> h;
  copy _ value dst _ := linked_copy value dst;
  getvalue c := (toy_magic ++ linked_dump c)%list;
|}.

Definition linked_view : @H5pyView linked_h5py := {|
  content := byte;
  obj_name := (λ o : linked_obj, byte_name (l_name o)) : @h5obj linked_h5py → string;
  obj_content := l_raw : @h5obj linked_h5py → byte;
  self_contained _ := True;
|}.

(** ** A toy [plotly.express] *)

Definition column (data : DataFrame) (kwds : kwargs) (axis : string) : result pyval :=
  match kwds !! axis with
  | Some (PStr name) =>
      match list_find (λ c, c.1 = name) data with
      | Some (_, (_, values)) => Ok (PTuple values)
      | None => Err (Exn ValueError "Value of argument is not the name of a column")
      end
  | Some _ => Err (Exn ValueError "Argument must be the name of a column")
  | None => Ok PNone
  end.

Definition express (kind : string) (data : DataFrame) (kwds : kwargs) : result Figure :=
  x ← column data kwds "x";
  y ← column data kwds "y";
  Ok (mkFigure [PDict {[ "type" := PStr kind; "x" := x; "y" := y ]}] ∅).

Definition layout_properties : gset string :=
  {[ "template"; "title"; "xaxis_title"; "yaxis_title"; "width"; "height" ]}.

#[export] Instance plotly : Plotly := {|
  px name :=
    if decide (name ∈ ["bar"; "line"; "scatter"]) then Some (ChartConstructor (express name))
    else if decide (name = "set_mapbox_access_token") then Some (OtherCallable (λ _ _, Ok PNone))
    else if decide (name = "data") then Some (NotCallable (PStr "module plotly.express.data"))
    else None;
  update_layout fig dict1 kwds :=
    match layout_updates dict1 with
    | Some d =>
        if decide (dom d ∪ dom kwds ⊆ layout_properties)
        then Ok (mkFigure (fig_data fig) (kwds ∪ (d ∪ fig_layout fig)))
        else Err (Exn ValueError "Invalid property specified for object of type Layout")
    | None => Err (Exn ValueError "Invalid value for update_layout")
    end;
|}.

(** ** A toy structured-text dataset *)

Record json_state : Type := mkJson {
  j_filepath : string;
  j_protocol : string;
  j_fs : filesystem;
  j_version : option Version;
  j_load_args : kwargs;
  j_save_args : kwargs;
}.

(** The text written for a figure: the names of its layout properties. *)
Definition toy_dumps (fig : Figure) : RawBytes :=
  String.list_byte_of_string (String.concat "," (elements (dom (fig_layout fig)))).

#[export] Instance json : JSONDataSet := {|
  json_instance := json_state;
  JSONDataSet__init__ filepath load_args save_args version credentials fs_args :=
    '(protocol, path) ← get_protocol_and_path filepath version;
    storage_options ← merge_kwargs (default ∅ credentials)
      (delete "open_args_load" (delete "open_args_save" (default ∅ fs_args)));
    fs ← fsspec_filesystem protocol storage_options;
    Ok (mkJson (PurePosixPath path) protocol fs version (default ∅ load_args) (default ∅ save_args));
  JSONDataSet_describe self :=
    {[ "filepath" := PStr (j_filepath self);
       "protocol" := PStr (j_protocol self);
       "load_args" := PDict (j_load_args self);
       "save_args" := PDict (j_save_args self);
       "version" := py_of_version (j_version self) ]};
  JSONDataSet_save self fig :=
    p ← get_save_path (j_filepath self) (j_version self);
    with_open (j_fs self) (get_filepath_str p (j_protocol self)) {[ "mode" := PStr "w" ]}
      (λ fs_file, fs_write fs_file (toy_dumps fig));;
    fs_invalidate_cache (j_fs self) (get_filepath_str (j_filepath self) (j_protocol self));
|}.

(** ** An in-memory world *)

Record open_stream : Type := mkStream {
  os_path : string;
  os_writing : bool;
  os_buffer : RawBytes;
}.

Record world : Type := mkWorld {
  files : gmap string RawBytes;
  streams : list open_stream;
  held : list lock;
}.

Definition empty_world : world := mkWorld ∅ [] [].

Definition versioned_path (filepath version : string) : string :=
  filepath ++ "/" ++ version ++ "/" ++ filepath.

Definition is_write_mode (open_args : kwargs) : bool :=
  match open_args !! "mode" with
  | Some (PStr m) => bool_decide (m = "wb") || bool_decide (m = "w")
  | _ => false
  end.

Definition answer (ev : event) (w : world) : resp ev * world :=
  match ev return resp ev * world with
  | GetLoadPath filepath version =>
      (match version with
       | None => Ok filepath
       | Some v =>
           match load v with
           | Some l => Ok (versioned_path filepath l)
           | None => Err (Exn VersionNotFoundError "Did not find any versions")
           end
       end, w)
  | GetSavePath filepath version =>
      (match version with
       | None => Ok filepath
       | Some v => Ok (versioned_path filepath (default "2026-01-01T00.00.00.000Z" (save v)))
       end, w)
  | FsOpen _ path open_args =>
      if is_write_mode open_args then
        (Ok (length (streams w)),
         mkWorld (files w) (streams w ++ [mkStream path true []]) (held w))
      else match files w !! path with
      | Some b =>
          (Ok (length (streams w)),
           mkWorld (files w) (streams w ++ [mkStream path false b]) (held w))
      | None => (Err (Exn OSError "No such file or directory"), w)
      end
  | FsRead f =>
      (match streams w !! f with
       | Some st => Ok (os_buffer st)
       | None => Err (Exn ValueError "I/O operation on closed file")
       end, w)
  | FsWrite f data =>
      match streams w !! f with
      | Some st =>
          (Ok (),
           mkWorld (files w)
             (<[f := mkStream (os_path st) (os_writing st) (os_buffer st ++ data)]> (streams w))
             (held w))
      | None => (Err (Exn ValueError "I/O operation on closed file"), w)
      end
  | FsClose f =>
      match streams w !! f with
      | Some st =>
          (Ok (),
           if os_writing st
           then mkWorld (<[os_path st := os_buffer st]> (files w)) (streams w) (held w)
           else w)
      | None => (Ok (), w)
      end
  | FsExists _ path => (Ok (bool_decide (is_Some (files w !! path))), w)
  | FsInvalidateCache _ _ => (Ok (), w)
  | LockAcquire l => ((), mkWorld (files w) (streams w) (l :: held w))
  | LockRelease l => ((), mkWorld (files w) (streams w) (tail (held w)))
  | H5Library _ => ((), w)
  | PxInvoke _ => ((), w)
  end%list.

Definition memory : handler world := Handler answer.

(** The same world behind a filesystem whose [exists] fails. *)
Definition unreachable : handler world :=
  Handler (λ ev w,
    match ev return resp ev * world with
    | FsExists _ _ => (Err (Exn OSError "Connection reset"), w)
    | ev => answer ev w
    end).

(** The same world behind a filesystem whose streams cannot be read or
    written: the connection drops after the open. *)
Definition dropping : handler world :=
  Handler (λ ev w,
    match ev return resp ev * world with
    | FsRead _ => (Err (Exn OSError "Connection reset"), w)
    | FsWrite _ _ => (Err (Exn OSError "Connection reset"), w)
    | ev => answer ev w
    end).

(** ** Sample inputs *)

(** A container with two objects, the second still an external link. *)
Definition two_objects : list toy_obj := [mkToy x61 x01 false; mkToy x62 x02 true].
Definition two_objects_image : RawBytes :=
  [x89; x48; x44; x46; x61; x01; x00; x62; x02; x01].
(** What encoding it gives: the link expanded. *)
Definition two_objects_encoded : RawBytes :=
  [x89; x48; x44; x46; x61; x01; x00; x62; x02; x00].

Definition aws_credentials : kwargs := {[ "key" := PStr "AKIA"; "secret" := PStr "hunter2" ]}.

(** [H5pyDataSet("s3://bucket/a.h5", credentials=...,
    fs_args={"open_args_save": {"compression": None}})], as built. *)
Definition s3_dataset : H5pyDataSet.instance :=
  H5pyDataSet.mkInstance "s3" (mkFs "s3" aws_credentials) "bucket/a.h5" None ∅ ∅
    (PDict ∅) {[ "compression" := PNone; "mode" := PStr "wb" ]}.

(** The same location with no credentials, an [fs_args] option, and the
    caller's own mode. *)
Definition s3_dataset_append : H5pyDataSet.instance :=
  H5pyDataSet.mkInstance "s3" (mkFs "s3" {[ "anon" := PBool true ]}) "bucket/a.h5" None ∅ ∅
    (PDict ∅) {[ "mode" := PStr "ab" ]}.

(** The same dataset, versioned, with no version named for loading. *)
Definition versioned_dataset : H5pyDataSet.instance :=
  H5pyDataSet.mkInstance "s3" (mkFs "s3" aws_credentials) "bucket/a.h5"
    (Some (mkVersion None None)) ∅ ∅ (PDict ∅) {[ "mode" := PStr "wb" ]}.

(** A world whose one file is the two-object container, and that world
    once a stream has been opened on the file. *)
Definition stored_world : world := mkWorld {[ "bucket/a.h5" := two_objects_image ]} [] [].
Definition stored_world_open : world :=
  mkWorld {[ "bucket/a.h5" := two_objects_image ]}
    [mkStream "bucket/a.h5" false two_objects_image] [].


Definition df : DataFrame := [("x", [PStr "a"; PStr "b"]); ("y", [PInt 1; PInt 2])].

Definition local_json : json_state := mkJson "plot.json" "file" (mkFs "file" ∅) None ∅ ∅.

Definition chart (plotly_args : kwargs) : PlotlyDataSet.instance :=
  PlotlyDataSet.mkInstance local_json plotly_args.

Definition bar_args : kwargs :=
  {[ "type" := PStr "bar";
     "fig" := PDict {[ "x" := PStr "x"; "y" := PStr "y" ]};
     "theme" := PStr "ggplot2";
     "layout" := PDict {[ "title" := PStr "T" ]} ]}.

(** A dataset on the local filesystem, and one whose [open_args_load] is
    not a mapping. *)
Definition local_dataset : H5pyDataSet.instance :=
  H5pyDataSet.mkInstance "file" (mkFs "file" {[ "auto_mkdir" := PBool true ]}) "data/a.h5"
    None ∅ ∅ (PDict ∅) {[ "mode" := PStr "wb" ]}.

Definition odd_load_dataset : H5pyDataSet.instance :=
  H5pyDataSet.mkInstance "s3" (mkFs "s3" ∅) "bucket/a.h5"
    None ∅ ∅ (PInt 7) {[ "mode" := PStr "wb" ]}.

(** A container with a dataset [a] and, next to it, a link [b] to a
    dataset that goes by the name [t] where it is stored (inside a group,
    or in another file); its image; the encoding of it; and what decoding
    that encoding returns. *)
Definition linked_container : list linked_obj :=
  [mkLinked x61 x61 x01; mkLinked x62 x74 x02].
Definition linked_image : RawBytes :=
  [x89; x48; x44; x46; x61; x61; x01; x62; x74; x02].
Definition linked_encoded : RawBytes :=
  [x89; x48; x44; x46; x61; x61; x01; x74; x74; x02].
Definition linked_reloaded : list linked_obj :=
  [mkLinked x61 x61 x01; mkLinked x74 x74 x02].

(** A container whose second object repeats the name of the first: the
    second copy is refused. *)
Definition clashing_objects : list toy_obj :=
  [mkToy x61 x01 false; mkToy x61 x02 false; mkToy x63 x03 false].

(** The same location with nothing configured. *)
Definition plain_s3_dataset : H5pyDataSet.instance :=
  H5pyDataSet.mkInstance "s3" (mkFs "s3" ∅) "bucket/a.h5"
    None ∅ ∅ (PDict ∅) {[ "mode" := PStr "wb" ]}.

Definition bar_figure : Figure :=
  mkFigure
    [PDict {[ "type" := PStr "bar";
              "x" := PTuple [PStr "a"; PStr "b"];
              "y" := PTuple [PInt 1; PInt 2] ]}]
    {[ "template" := PStr "ggplot2"; "title" := PStr "T" ]}.

End Sample.

(* ===================================================================== *)
(** * Reading traces                                                      *)
(* ===================================================================== *)

Definition is_lock_event (ev : event) : bool :=
  match ev with LockAcquire _ | LockRelease _ => true | _ => false end.

(** Byte-stream I/O on the external filesystem. *)
Definition is_stream_io (ev : event) : bool :=
  match ev with FsOpen _ _ _ | FsRead _ | FsWrite _ _ | FsClose _ => true | _ => false end.

Definition is_h5py_call (ev : event) : bool :=
  match ev with H5Library _ => true | _ => false end.

(** The lock taken, one library call made, the lock given back. *)
Definition critical_section (l : lock) (c : h5call) : list event :=
  [LockAcquire l; H5Library c; LockRelease l].

(** Outside the critical section: no lock event and no library call. *)
Definition unlocked (ev : event) : Prop :=
  is_lock_event ev = false ∧ is_h5py_call ev = false.

(* ===================================================================== *)
(** * The specification's words                                           *)
(* ===================================================================== *)

(** Every object of the list copied into the destination, in order, each
    with the flag set [fl]. *)
Inductive copies_all `{H5py} (src : h5file) (fl : copy_flags)
    : list h5obj → h5file → h5file → Prop :=
| copies_nil dst : copies_all src fl [] dst dst
| copies_cons value rest dst dst1 dst2 :
    copy src value dst fl = Ok dst1 →
    copies_all src fl rest dst1 dst2 →
    copies_all src fl (value :: rest) dst dst2.


(** The chart kind names one of the charting library's constructors. *)
Definition names_chart_constructor `{Plotly} (kind : pyval) : bool :=
  match kind with
  | PStr name => match px name with Some (ChartConstructor _) => true | _ => false end
  | _ => false
  end.

(** Figure construction fails with the unsupported-kind error, the
    [AttributeError] of the failed lookup, and nothing was constructed: no
    call was made. *)
Definition unsupported_kind_rejected `{Plotly} `{JSONDataSet}
    (self : PlotlyDataSet.instance) (data : DataFrame) : Prop :=
  ∀ (S : Type) (h : handler S) (s : S),
    ∃ msg, run h (PlotlyDataSet._plot_dataframe self data) s
             = ([], Err (Exn AttributeError msg), s).

(** The [open_args_save] mapping the caller nested in [fs_args]. *)
Definition caller_open_args_save (fs_args : option kwargs) : kwargs :=
  match default ∅ fs_args !! "open_args_save" with
  | Some (PDict d) => d
  | _ => ∅
  end.

(** The [fs_args] that reach the filesystem constructor: the caller's
    without the two nested mappings, with [auto_mkdir] defaulted on the
    local filesystem. *)
Definition filesystem_args (protocol : string) (fs_args : option kwargs) : kwargs :=
  let rest := delete "open_args_save" (delete "open_args_load" (default ∅ fs_args)) in
  if decide (protocol = "file") then dict_setdefault "auto_mkdir" (PBool true) rest else rest.

Definition is_cache_invalidation (ev : event) : bool :=
  match ev with FsInvalidateCache _ _ => true | _ => false end.


(** The keyword arguments the chart constructor is called with. *)
Definition fig_params `{JSONDataSet} (self : PlotlyDataSet.instance) : kwargs :=
  match PlotlyDataSet._plotly_args self !! "fig" with
  | Some (PDict d) => d
  | _ => ∅
  end.

(** One step of a run, for proofs by cases on what the collaborators
    answer: ask the handler, look at the outcome of a pure call, or decide
    a test; then simplify. *)
Ltac answer h :=
  match goal with
  | |- context [respond h ?ev ?s] =>
      let r := fresh "r" in
      let s' := fresh "s" in
      destruct (respond h ev s) as [r s'] eqn:?; simpl in r;
      try (destruct r as [?|?]); simpl
  | |- context [of_result ?r] => destruct r as [?|?] eqn:?; simpl
  | |- context [decide ?P] => destruct (decide P); simpl
  end.

(* ===================================================================== *)
(** * How programs run                                                    *)
(* ===================================================================== *)

Section Running.
Context {S : Type} (h : handler S).

Lemma run_of_result {A : Type} (r : result A) (s : S) :
  run h (of_result r) s = ([], r, s).
Proof. by destruct r. Qed.

Lemma run_bind {A B : Type} (p : prog A) (f : A → prog B) (s : S) :
  run h (p ≫= f) s =
    match run h p s with
    | (t1, Ok a, s1) => let '(t2, r2, s2) := run h (f a) s1 in ((t1 ++ t2)%list, r2, s2)
    | (t1, Err e, s1) => (t1, Err e, s1)
    end.
Proof.
  revert s. induction p as [a|e|ev k IH]; intros s; simpl.
  - by destruct (run h (f a) s) as [[t r] s'].
  - done.
  - destruct (respond h ev s) as [r s1].
    change (prog_bind_def f (k r)) with (k r ≫= f). rewrite IH.
    destruct (run h (k r) s1) as [[t1 [a|e]] s2]; [|done].
    by destruct (run h (f a) s2) as [[t2 r2] s3].
Qed.

Lemma run_finally {A : Type} (body : prog A) (cleanup : prog unit) (s : S) :
  run h (finally_ body cleanup) s =
    let '(t1, r1, s1) := run h body s in
    let '(t2, r2, s2) := run h cleanup s1 in
    ((t1 ++ t2)%list, match r2 with Ok _ => r1 | Err e => Err e end, s2).
Proof.
  revert s. induction body as [a|e|ev k IH]; intros s; simpl.
  - rewrite run_bind.
    destruct (run h cleanup s) as [[t2 [[]|e2]] s2]; simpl; by rewrite ?app_nil_r.
  - rewrite run_bind.
    destruct (run h cleanup s) as [[t2 [[]|e2]] s2]; simpl; by rewrite ?app_nil_r.
  - destruct (respond h ev s) as [r s1]. rewrite IH.
    destruct (run h (k r) s1) as [[t1 r1] s2].
    by destruct (run h cleanup s2) as [[t2 r2] s3].
Qed.

Lemma run_try_except {A : Type} (body : prog A) (cls : exn_class) (handler : prog A) (s : S) :
  run h (try_except body cls handler) s =
    match run h body s with
    | (t1, Ok a, s1) => (t1, Ok a, s1)
    | (t1, Err e, s1) =>
        if isinstance e cls
        then let '(t2, r2, s2) := run h handler s1 in ((t1 ++ t2)%list, r2, s2)
        else (t1, Err e, s1)
    end.
Proof.
  revert s. induction body as [a|e|ev k IH]; intros s; simpl.
  - done.
  - destruct (isinstance e cls); [|done].
    by destruct (run h handler s) as [[t2 r2] s2].
  - destruct (respond h ev s) as [r s1]. rewrite IH.
    destruct (run h (k r) s1) as [[t1 [a|e]] s2]; [done|].
    destruct (isinstance e cls); [|done].
    by destruct (run h handler s2) as [[t2 r2] s3].
Qed.

End Running.

(* ===================================================================== *)
(** * The binary-container codec                                          *)
(* ===================================================================== *)

Section Codec.
Context `{H5pyView}.
Import H5pyDataSet.

Lemma expand_all_expands : expands_everything expand_all.
Proof. by repeat split. Qed.

(** The loop of the encoder is the relation of the specification. *)
Lemma copy_items_copies_all (h5f : h5file) (its : list (string * h5obj)) (biof biof' : h5file) :
  copy_items h5f its biof = Ok biof' ↔ copies_all h5f expand_all its.*2 biof biof'.
Proof.
  revert biof. induction its as [|[key value] rest IH]; intros biof; simpl.
  - split; [intros [= <-]; constructor | by inversion 1].
  - split.
    + destruct (copy h5f value biof expand_all) as [biof1|e] eqn:Hcopy; [|done].
      intros Hrest%IH. by econstructor.
    + inversion 1 as [|? ? ? biof1 ? Hcopy Hrest]; subst.
      rewrite Hcopy. by apply IH.
Qed.

Lemma copies_all_bio_file (src : h5file) (fl : copy_flags) (values : list h5obj)
    (dst dst' : h5file) :
  copies_all src fl values dst dst' → bio_file dst → bio_file dst'.
Proof.
  induction 1 as [dst|value rest dst dst1 dst2 Hcopy _ IH]; [done|].
  intros Hdst. apply IH. eauto using bio_copy.
Qed.

(** What the call [h5py.File(bio, 'w', **save_args)] asks of the library. *)
Lemma call_File_bio (save_args : kwargs) (c : h5file) :
  call_File FromBytesIO (Some "w") save_args = Ok c →
  File FromBytesIO (<["mode" := PStr "w"]> save_args) = Ok c.
Proof. unfold call_File. by repeat case_decide. Qed.

Lemma call_File_bio_fresh (save_args : kwargs) :
  save_args !! "name" = None → save_args !! "mode" = None →
  call_File FromBytesIO (Some "w") save_args
  = File FromBytesIO (<["mode" := PStr "w"]> save_args).
Proof.
  intros Hname Hmode. unfold call_File. rewrite Hname, Hmode.
  by rewrite !decide_False by (by intros [? [=]]).
Qed.

(** The steps of a successful encoding. *)
Lemma to_binary_inv (h5f : h5file) (save_args : kwargs) (binary : RawBytes) :
  __h5py_to_binary h5f save_args = Ok binary →
  ∃ fresh biof,
    File FromBytesIO (<["mode" := PStr "w"]> save_args) = Ok fresh
    ∧ copies_all h5f expand_all (items h5f).*2 fresh biof
    ∧ binary = getvalue biof.
Proof.
  unfold __h5py_to_binary.
  destruct (call_File _ _ _) as [fresh|e] eqn:Hnew; [simpl|done].
  destruct (copy_items _ _ _) as [biof|e] eqn:Hloop; [simpl|done].
  intros [= <-]. apply call_File_bio in Hnew. apply copy_items_copies_all in Hloop. eauto.
Qed.

(** The steps of a successful decoding. *)
Lemma from_binary_inv (binary : RawBytes) (load_args : kwargs) (h : h5file) :
  __h5py_from_binary binary load_args = Ok h →
  binary ≠ []
  ∧ ∃ fid kwds,
      h5f_open (String.list_byte_of_string candidate_name) ACC_RDONLY (image_fapl binary) = Ok fid
      ∧ File (FromFileId fid) kwds = Ok h.
Proof.
  unfold __h5py_from_binary. destruct binary as [|b0 binary]; [done|]. simpl.
  change (mkFapl _ _) with (image_fapl (b0 :: binary)).
  destruct (h5f_open _ _ _) as [fid|e]; [simpl|done].
  destruct (merge_kwargs _ _) as [kwds|e]; [simpl|done].
  unfold call_File. case_decide; [done|]. eauto.
Qed.



(** Decoding a file image that opens, with the default options. *)
Lemma from_binary_default (binary : RawBytes) (fid : file_id) :
  binary ≠ [] →
  h5f_open (String.list_byte_of_string candidate_name) ACC_RDONLY (image_fapl binary) = Ok fid →
  __h5py_from_binary binary DEFAULT_LOAD_ARGS
  = File (FromFileId fid)
      {[ "backing_store" := PBool false; "driver" := PStr "core"; "mode" := PStr "r" ]}.
Proof.
  intros Hne Hopen. unfold __h5py_from_binary. destruct binary as [|b0 binary]; [done|]. simpl.
  change (mkFapl _ _) with (image_fapl (b0 :: binary)). rewrite Hopen. simpl.
  unfold DEFAULT_LOAD_ARGS, merge_kwargs.
  rewrite decide_True by apply map_disjoint_empty_r. simpl.
  rewrite (right_id_L ∅ (∪)). unfold call_File.
  by rewrite decide_False by (by vm_compute; intros [? [=]]).
Qed.

Context `{!H5pyCopyLaws}.

Lemma copies_all_entries (src : h5file) (fl : copy_flags) (values : list h5obj)
    (dst dst' : h5file) :
  expands_everything fl →
  copies_all src fl values dst dst' →
  entries dst' ≡ₚ (entries dst ++ ((λ v, (obj_name v, obj_content v)) <$> values))%list.
Proof.
  intros Hfl. induction 1 as [dst|value rest dst dst1 dst2 Hcopy _ IH]; simpl.
  - by rewrite app_nil_r.
  - rewrite IH, (copy_entry _ _ _ _ _ Hcopy Hfl). by rewrite <-app_assoc.
Qed.

Lemma copies_all_self_contained (src : h5file) (fl : copy_flags) (values : list h5obj)
    (dst dst' : h5file) :
  expands_everything fl →
  copies_all src fl values dst dst' → self_contained dst → self_contained dst'.
Proof.
  intros Hfl. induction 1 as [dst|value rest dst dst1 dst2 Hcopy _ IH]; [done|].
  intros Hdst. apply IH. eauto using copy_self_contained.
Qed.

End Codec.

(* ===================================================================== *)
(** * The binary-container adapter                                        *)
(* ===================================================================== *)

Section Adapter.
Context `{KedroCore} `{Fsspec} `{H5py}.
Import H5pyDataSet.

(** Every run of [_load]: events outside any lock, then, unless the run
    has already failed, the critical section, and nothing after it. *)
Lemma load_lock_discipline {S : Type} (h : handler S) (s : S) (self : instance) :
  ∃ before,
    Forall unlocked before ∧
    ((trace_of (run h (_load self) s) = before
      ∧ ∃ e, outcome_of (run h (_load self) s) = Err e)
     ∨ trace_of (run h (_load self) s)
         = (before ++ critical_section _lock FromBinary)%list).
Proof.
  unfold _load, with_lock, with_open, call_open, get_load_path, h5py_call.
  simpl. repeat answer h;
  first
    [ eexists; split; [|left; split; [reflexivity|by eexists]]; solve [repeat constructor]
    | match goal with
      | |- ∃ _, _ ∧ (_ ∨ trace_of (?t, _, _) = _) =>
          exists (take (length t - 3) t);
          split; [solve [repeat constructor] | right; reflexivity]
      end ].
Qed.

(** Every run of [_save]: the path is resolved, then, unless that failed,
    the critical section, then the filesystem events. *)
Lemma save_lock_discipline {S : Type} (h : handler S) (s : S) (self : instance)
    (data : h5file) :
  ∃ before after,
    Forall (λ ev, unlocked ev ∧ is_stream_io ev = false) before ∧
    Forall unlocked after ∧
    ((trace_of (run h (_save self data) s) = before
      ∧ ∃ e, outcome_of (run h (_save self data) s) = Err e)
     ∨ trace_of (run h (_save self data) s)
         = (before ++ critical_section _lock ToBinary ++ after)%list).
Proof.
  unfold _save, _invalidate_cache, with_lock, with_open, call_open, get_save_path, h5py_call.
  simpl. repeat answer h;
  first
    [ eexists _, []; split; [|split; [constructor | left; split; [reflexivity|by eexists]]];
      solve [repeat constructor]
    | match goal with
      | |- ∃ _ _, _ ∧ _ ∧ (_ ∨ trace_of (?t, _, _) = _) =>
          exists (take 1 t), (drop 4 t);
          split; [solve [repeat constructor] |];
          split; [solve [repeat constructor] | right; reflexivity]
      end ].
Qed.

(** A load whose path resolves and whose stream opens, reads and closes:
    the whole run.  The bytes read are decoded under the lock, and the
    outcome of the load is the outcome of the decoding. *)
Lemma load_reaches_the_library {S : Type} (h : handler S) (s s1 s2 s3 s4 : S)
    (self : instance) (p : string) (open_args : kwargs) (f : stream) (binary : RawBytes) :
  respond h (GetLoadPath (_filepath self) (_version self)) s = (Ok p, s1) →
  unpack_kwargs (_fs_open_args_load self) = Ok open_args →
  open_args !! "path" = None →
  respond h (FsOpen (_fs self) (get_filepath_str p (_protocol self)) open_args) s1
    = (Ok f, s2) →
  respond h (FsRead f) s2 = (Ok binary, s3) →
  respond h (FsClose f) s3 = (Ok (), s4) →
  run h (_load self) s
  = (([GetLoadPath (_filepath self) (_version self);
       FsOpen (_fs self) (get_filepath_str p (_protocol self)) open_args;
       FsRead f; FsClose f] ++ critical_section _lock FromBinary)%list,
     __h5py_from_binary binary (_load_args self),
     (respond h (LockRelease _lock)
        (respond h (H5Library FromBinary) (respond h (LockAcquire _lock) s4).2).2).2).
Proof.
  intros Hresolve Hargs Hpath Hopen Hread Hclose.
  unfold _load, with_lock, with_open, call_open, get_load_path, h5py_call.
  simpl. rewrite Hresolve. simpl. rewrite Hargs. simpl.
  rewrite decide_False by (rewrite Hpath; by intros [? [=]]). simpl.
  rewrite Hopen. simpl. rewrite Hread. simpl. rewrite Hclose. simpl.
  destruct (respond h (LockAcquire _lock) s4) as [[] s5]. simpl.
  destruct (respond h (H5Library FromBinary) s5) as [[] s6]. simpl.
  destruct (__h5py_from_binary binary (_load_args self)) as [handle|e]; simpl;
    by destruct (respond h (LockRelease _lock) s6) as [[] s7].
Qed.

(** A save whose path resolves: the encoding under the lock comes next,
    whatever it returns, and the rest of the run holds no lock.  When the
    encoding raises there is no rest; when it returns, the rest starts
    with the open of the stream. *)
Lemma save_reaches_the_library {S : Type} (h : handler S) (s s1 : S) (self : instance)
    (data : h5file) (p : string) :
  respond h (GetSavePath (_filepath self) (_version self)) s = (Ok p, s1) →
  ∃ after,
    trace_of (run h (_save self data) s)
    = (GetSavePath (_filepath self) (_version self)
       :: critical_section _lock ToBinary ++ after)%list
    ∧ Forall unlocked after
    ∧ (∀ e, __h5py_to_binary data (_save_args self) = Err e →
         after = [] ∧ outcome_of (run h (_save self data) s) = Err e)
    ∧ (∀ binary, __h5py_to_binary data (_save_args self) = Ok binary →
         _fs_open_args_save self !! "path" = None →
         _fs_open_args_save self !! "self" = None →
         ∃ rest,
           after = FsOpen (_fs self) (get_filepath_str p (_protocol self))
                     (_fs_open_args_save self) :: rest).
Proof.
  intros Hresolve.
  unfold _save, _invalidate_cache, with_lock, with_open, call_open, get_save_path, h5py_call.
  simpl. rewrite Hresolve. simpl.
  destruct (respond h (LockAcquire _lock) s1) as [[] s2]. simpl.
  destruct (respond h (H5Library ToBinary) s2) as [[] s3]. simpl.
  destruct (__h5py_to_binary data (_save_args self)) as [binary|e]; simpl;
    destruct (respond h (LockRelease _lock) s3) as [[] s4]; simpl.
  - destruct (decide (is_Some (_fs_open_args_save self !! "path"))) as [Hgiven|_]; simpl.
    + exists []. split_and!; [done|constructor|done|].
      intros ? _ Hpath. rewrite Hpath in Hgiven. by destruct Hgiven.
    + repeat answer h; unfold trace_of, outcome_of; simpl;
        (eexists; split_and!; [reflexivity|solve [repeat constructor]|done|by eauto]).
  - exists []. split_and!; [done|constructor| |done]. by intros ? [= <-].
Qed.

(** C3.  Load and save take the same lock, the class attribute
    [H5pyDataSet._lock], and hold it for the library call alone.  In a run
    of load every filesystem event, the close of the stream included, comes
    before the lock is taken, and nothing follows its release.  In a run of
    save no byte-stream event comes before the lock is taken, the library
    call is the only event under the lock, and the stream is opened, written
    and closed after the release.  A run that never reaches the lock has
    failed.  And the lock is reached: a load whose path resolves and whose
    stream opens, reads and closes (the open arguments naming no
    parameter the call binds already) runs exactly these four steps and
    then the decoding of the bytes read under the lock, whose outcome is
    the outcome of the load; a save whose path resolves runs the encoding
    under the lock next; when the encoding raises, the save ends there
    with that error, and when it returns, the stream is opened after the
    release. *)
Theorem lock_covers_only_the_library_call {S : Type} (h : handler S) (s : S)
    (self : instance) (data : h5file) :
  (∃ before,
     Forall unlocked before ∧
     ((trace_of (run h (_load self) s) = before
       ∧ ∃ e, outcome_of (run h (_load self) s) = Err e)
      ∨ trace_of (run h (_load self) s)
          = (before ++ critical_section _lock FromBinary)%list))
  ∧ (∃ before after,
       Forall (λ ev, unlocked ev ∧ is_stream_io ev = false) before ∧
       Forall unlocked after ∧
       ((trace_of (run h (_save self data) s) = before
         ∧ ∃ e, outcome_of (run h (_save self data) s) = Err e)
        ∨ trace_of (run h (_save self data) s)
            = (before ++ critical_section _lock ToBinary ++ after)%list))
  ∧ (∀ (s1 s2 s3 s4 : S) (p : string) (open_args : kwargs) (f : stream)
       (binary : RawBytes),
       respond h (GetLoadPath (_filepath self) (_version self)) s = (Ok p, s1) →
       unpack_kwargs (_fs_open_args_load self) = Ok open_args →
       open_args !! "path" = None → open_args !! "self" = None →
       respond h (FsOpen (_fs self) (get_filepath_str p (_protocol self)) open_args) s1
         = (Ok f, s2) →
       respond h (FsRead f) s2 = (Ok binary, s3) →
       respond h (FsClose f) s3 = (Ok (), s4) →
       trace_of (run h (_load self) s)
       = ([GetLoadPath (_filepath self) (_version self);
           FsOpen (_fs self) (get_filepath_str p (_protocol self)) open_args;
           FsRead f; FsClose f] ++ critical_section _lock FromBinary)%list
       ∧ outcome_of (run h (_load self) s) = __h5py_from_binary binary (_load_args self))
  ∧ (∀ (s1 : S) (p : string),
       respond h (GetSavePath (_filepath self) (_version self)) s = (Ok p, s1) →
       ∃ after,
         trace_of (run h (_save self data) s)
         = (GetSavePath (_filepath self) (_version self)
            :: critical_section _lock ToBinary ++ after)%list
         ∧ Forall unlocked after
         ∧ (∀ e, __h5py_to_binary data (_save_args self) = Err e →
              after = [] ∧ outcome_of (run h (_save self data) s) = Err e)
         ∧ (∀ binary, __h5py_to_binary data (_save_args self) = Ok binary →
              _fs_open_args_save self !! "path" = None →
              _fs_open_args_save self !! "self" = None →
              ∃ rest,
                after = FsOpen (_fs self) (get_filepath_str p (_protocol self))
                          (_fs_open_args_save self) :: rest)).
Proof.
  split_and!.
  - apply load_lock_discipline.
  - apply save_lock_discipline.
  - intros s1 s2 s3 s4 p open_args f binary Hresolve Hargs Hpath _ Hopen Hread Hclose.
    by rewrite (load_reaches_the_library h s s1 s2 s3 s4 self p open_args f binary).
  - intros s1 p Hresolve. by eapply save_reaches_the_library.
Qed.

(** C7.  [_exists] by cases on what the path resolver answers.  When it
    raises a [DataSetError] (or a subclass, such as the error for no saved
    version), the result is [False] and nothing else is asked; any other
    exception of the resolver propagates; when it answers a path, the
    result is the answer of the filesystem, an exception included. *)
Theorem exists_downgrades_only_path_resolution {S : Type} (h : handler S) (s : S)
    (self : instance) :
  let resolve := GetLoadPath (_filepath self) (_version self) in
  let '(resolved, s1) := respond h resolve s in
  match resolved with
  | Err e =>
      run h (_exists self) s =
        ([resolve], if isinstance e DataSetError then Ok false else Err e, s1)
  | Ok p =>
      let ask := FsExists (_fs self) (get_filepath_str p (_protocol self)) in
      let '(found, s2) := respond h ask s1 in
      run h (_exists self) s = ([resolve; ask], found, s2)
  end.
Proof.
  unfold _exists, get_load_path, fs_exists. simpl.
  destruct (respond h _ s) as [[p|e] s1]; simpl.
  - destruct (respond h _ s1) as [[found|e] s2]; by simpl.
  - by destruct (isinstance e DataSetError).
Qed.

(** What [__init__] leaves in the instance, read off its definition. *)
Lemma init_inv (filepath : string) (load_args save_args : option kwargs)
    (version : option Version) (credentials fs_args : option kwargs) (self : instance) :
  __init__ filepath load_args save_args version credentials fs_args = Ok self →
  ∃ protocol path,
    get_protocol_and_path filepath version = Ok (protocol, path)
    ∧ _protocol self = protocol
    ∧ _filepath self = PurePosixPath path
    ∧ _version self = version
    ∧ _load_args self = dict_update DEFAULT_LOAD_ARGS (default ∅ load_args)
    ∧ _save_args self = dict_update DEFAULT_SAVE_ARGS (default ∅ save_args)
    ∧ py_setdefault "mode" (PStr "wb")
        (default (PDict ∅) (default ∅ fs_args !! "open_args_save"))
      = Ok (_fs_open_args_save self).
Proof.
  unfold __init__, dict_pop. simpl.
  destruct (get_protocol_and_path filepath version) as [[protocol path]|e]; [simpl|done].
  destruct (call_filesystem _ _ _) as [fs|e]; [simpl|done].
  rewrite lookup_delete_ne by done.
  destruct (py_setdefault _ _ _) as [open_args_save|e]; [simpl|done].
  intros [= <-]. exists protocol, path. simpl. split_and!; try done.
  - destruct load_args; simpl; [done|]. unfold dict_update. by rewrite (left_id_L ∅ (∪)).
  - destruct save_args; simpl; [done|]. unfold dict_update. by rewrite (left_id_L ∅ (∪)).
Qed.

Lemma h5py_describe_ignores_credentials (filepath : string) (load_args save_args : option kwargs)
    (version : option Version) (credentials1 fs_args1 credentials2 fs_args2 : option kwargs)
    (self1 self2 : instance) :
  __init__ filepath load_args save_args version credentials1 fs_args1 = Ok self1 →
  __init__ filepath load_args save_args version credentials2 fs_args2 = Ok self2 →
  _describe self1 = _describe self2.
Proof.
  intros (protocol1 & path1 & Hp1 & Hproto1 & Hpath1 & Hv1 & Hl1 & Hs1 & _)%init_inv
         (protocol2 & path2 & Hp2 & Hproto2 & Hpath2 & Hv2 & Hl2 & Hs2 & _)%init_inv.
  rewrite Hp1 in Hp2. injection Hp2 as <- <-.
  unfold _describe. congruence.
Qed.

(** C10.  The [open_args_save] the instance keeps is the caller's mapping
    with ["mode"] defaulted to ["wb"]: without a caller's mode it is
    ["wb"], a caller's mode is kept, and every other key is unchanged.
    Every stream [_save] opens is opened on the instance's filesystem with
    exactly these arguments, and when the path resolves and the encoding
    succeeds the stream is opened. *)
Theorem save_stream_mode (filepath : string) (load_args save_args : option kwargs)
    (version : option Version) (credentials fs_args : option kwargs) (self : instance) :
  __init__ filepath load_args save_args version credentials fs_args = Ok self →
  let given := caller_open_args_save fs_args in
  (given !! "mode" = None → _fs_open_args_save self !! "mode" = Some (PStr "wb"))
  ∧ (∀ m, given !! "mode" = Some m → _fs_open_args_save self !! "mode" = Some m)
  ∧ (∀ key, key ≠ "mode" → _fs_open_args_save self !! key = given !! key)
  ∧ (∀ (S : Type) (h : handler S) (s : S) (data : h5file) fs path open_args,
       FsOpen fs path open_args ∈ trace_of (run h (_save self data) s) →
       fs = _fs self ∧ open_args = _fs_open_args_save self)
  ∧ (∀ (S : Type) (h : handler S) (s s1 : S) (data : h5file) p binary,
       respond h (GetSavePath (_filepath self) (_version self)) s = (Ok p, s1) →
       __h5py_to_binary data (_save_args self) = Ok binary →
       _fs_open_args_save self !! "path" = None →
       FsOpen (_fs self) (get_filepath_str p (_protocol self)) (_fs_open_args_save self)
         ∈ trace_of (run h (_save self data) s)).
Proof.
  intros (protocol & path & _ & _ & _ & _ & _ & _ & Hopen)%init_inv given.
  assert (Hargs : _fs_open_args_save self = dict_setdefault "mode" (PStr "wb") given).
  { subst given. unfold caller_open_args_save.
    destruct (default ∅ fs_args !! "open_args_save") as [[]|]; simpl in Hopen; congruence. }
  split_and!.
  - intros Hnone. rewrite Hargs. unfold dict_setdefault. rewrite Hnone.
    by rewrite lookup_insert_eq.
  - intros m Hm. rewrite Hargs. unfold dict_setdefault. by rewrite Hm.
  - intros key Hkey. rewrite Hargs. unfold dict_setdefault.
    destruct (given !! "mode"); [done|]. by rewrite lookup_insert_ne.
  - intros S h s data fs at_path open_args.
    unfold _save, _invalidate_cache, with_lock, with_open, call_open, get_save_path, h5py_call.
    simpl. repeat answer h; unfold trace_of; simpl;
      rewrite ?elem_of_cons, ?elem_of_nil; intros Hin;
      repeat (destruct Hin as [Hin|Hin]; try done); by injection Hin as -> -> ->.
  - intros S h s s1 data p binary Hresolve Hencode Hpath.
    unfold _save, _invalidate_cache, with_lock, with_open, call_open, get_save_path, h5py_call.
    simpl. rewrite Hresolve. simpl.
    destruct (respond h (LockAcquire _lock) s1) as [[] s2]. simpl.
    destruct (respond h (H5Library ToBinary) s2) as [[] s3]. simpl.
    rewrite Hencode. simpl.
    destruct (respond h (LockRelease _lock) s3) as [[] s4]. simpl.
    rewrite decide_False by (rewrite Hpath; by intros [? [=]]). simpl.
    repeat answer h; unfold trace_of; simpl; set_solver.
Qed.
End Adapter.

(* ===================================================================== *)
(** * Decoding a buffer that is no container                              *)
(* ===================================================================== *)

Section Decoding.
Context `{KedroCore} `{Fsspec} `{H5py}.
Import H5pyDataSet.

(** The buffers the library takes for containers, and what it promises of
    the others: [h5f.open] on the image of one raises [OSError]. *)
Variable well_formed : RawBytes → bool.
Hypothesis open_malformed : ∀ name binary,
  binary ≠ [] → well_formed binary = false →
  ∃ msg, h5f_open name ACC_RDONLY (image_fapl binary) = Err (Exn OSError msg).




End Decoding.

(* ===================================================================== *)
(** * The codec over a library that keeps its contract                    *)
(* ===================================================================== *)

Section CodecLaws.
Context `{H5pyView}.
Import H5pyDataSet.

(** What a successful encoding made, over a library whose new files
    are empty and whose [copy] adds the object copied. *)
Lemma to_binary_output `{!H5pyCopyLaws} (h5f : h5file) (save_args : kwargs)
    (binary : RawBytes) :
  __h5py_to_binary h5f save_args = Ok binary →
  ∃ fresh biof,
    File FromBytesIO (<["mode" := PStr "w"]> save_args) = Ok fresh
    ∧ entries fresh = []
    ∧ copies_all h5f expand_all (items h5f).*2 fresh biof
    ∧ entries biof ≡ₚ (λ kv, (obj_name kv.2, obj_content kv.2)) <$> items h5f
    ∧ (listed_by_own_name h5f → entries biof ≡ₚ entries h5f)
    ∧ self_contained biof
    ∧ binary = getvalue biof.
Proof.
  intros (fresh & biof & Hnew & Hloop & ->)%to_binary_inv.
  destruct (create_empty _ _ Hnew) as [Hempty Hsc].
  assert (Hout : entries biof ≡ₚ (λ kv, (obj_name kv.2, obj_content kv.2)) <$> items h5f).
  { rewrite (copies_all_entries _ _ _ _ _ expand_all_expands Hloop), Hempty. simpl.
    by rewrite <-list_fmap_compose. }
  exists fresh, biof. split_and!; try done.
  - intros Hown. rewrite Hout. unfold entries.
    apply reflexive_eq, list_fmap_ext. intros i [key value] Hi. simpl.
    unfold listed_by_own_name in Hown. rewrite Forall_lookup in Hown.
    specialize (Hown i _ Hi). simpl in Hown. by rewrite Hown.
  - eauto using copies_all_self_contained, expand_all_expands.
Qed.

(** X17.  Over a library whose new files are empty and whose [copy]
    adds the object copied: a successful encoding opened a new file on a
    fresh [BytesIO] in mode ["w"], empty at first; copied every top-level
    object of the handle into it, in order, with soft links, external
    links and references expanded; and returned the bytes behind that
    file, which is self-contained and lists each object copied under the
    object's own name, with its content.  When every top-level object of
    the handle goes by the key it is listed under, these are the entries
    of the handle.  Conversely, when the library accepts the new file and
    each copy, the encoding returns those bytes. *)
Theorem encode_copies_objects_by_own_name `{!H5pyCopyLaws} (h5f : h5file)
    (save_args : kwargs) :
  (∀ binary,
     __h5py_to_binary h5f save_args = Ok binary →
     ∃ fresh biof,
       File FromBytesIO (<["mode" := PStr "w"]> save_args) = Ok fresh
       ∧ entries fresh = []
       ∧ copies_all h5f expand_all (items h5f).*2 fresh biof
       ∧ entries biof ≡ₚ (λ kv, (obj_name kv.2, obj_content kv.2)) <$> items h5f
       ∧ (listed_by_own_name h5f → entries biof ≡ₚ entries h5f)
       ∧ self_contained biof
       ∧ binary = getvalue biof)
  ∧ expands_everything expand_all
  ∧ (∀ fresh biof,
       save_args !! "name" = None → save_args !! "mode" = None →
       File FromBytesIO (<["mode" := PStr "w"]> save_args) = Ok fresh →
       copies_all h5f expand_all (items h5f).*2 fresh biof →
       __h5py_to_binary h5f save_args = Ok (getvalue biof)).
Proof.
  split_and!.
  - apply to_binary_output.
  - apply expand_all_expands.
  - intros fresh biof Hname Hmode Hnew Hloop. unfold __h5py_to_binary.
    rewrite (call_File_bio_fresh _ Hname Hmode), Hnew. simpl.
    apply copy_items_copies_all in Hloop. by rewrite Hloop.
Qed.

(** X18.  Over a library that also reads back what it wrote: when
    encoding a handle returns a buffer, decoding that buffer with the
    default options returns a handle, and every handle decoded from it,
    whatever the options, lists the top-level objects of the original,
    each under the object's own name, with its raw content.  For a handle
    whose top-level objects each go by the key they are listed under,
    these are the entries of the original, names and raw content. *)
Theorem roundtrip_lists_objects_by_own_name `{!H5pyCopyLaws} `{!H5pyReopenLaws}
    (h : h5file) (save_args : kwargs) (binary : RawBytes) :
  __h5py_to_binary h save_args = Ok binary →
  (∃ h', __h5py_from_binary binary DEFAULT_LOAD_ARGS = Ok h')
  ∧ (∀ load_args h',
       __h5py_from_binary binary load_args = Ok h' →
       entries h' ≡ₚ (λ kv, (obj_name kv.2, obj_content kv.2)) <$> items h
       ∧ (listed_by_own_name h → entries h' ≡ₚ entries h)).
Proof.
  intros Henc.
  destruct (to_binary_output h save_args binary Henc)
    as (fresh & biof & Hnew & _ & Hloop & Hout & Hsame & _ & ->).
  assert (Hbio : bio_file biof) by eauto using copies_all_bio_file, bio_new.
  destruct (reopen biof (String.list_byte_of_string candidate_name) Hbio)
    as (Hne & fid & Hopen & [h' Hdefault] & Hany).
  split.
  - exists h'. by rewrite (from_binary_default _ fid Hne Hopen).
  - intros load_args h'' (_ & fid' & kwds' & Hopen' & Hh')%from_binary_inv.
    rewrite Hopen in Hopen'. injection Hopen' as <-.
    split; [rewrite <-Hout|intros Hown; rewrite <-(Hsame Hown)]; eauto.
Qed.

End CodecLaws.

(* ===================================================================== *)
(** * The chart-artifact builder                                          *)
(* ===================================================================== *)

Section Charts.
Context `{Plotly} `{JSONDataSet}.
Import PlotlyDataSet.

(** C2, as amended.  When the kind is a string that names no attribute of
    the charting namespace, figure construction raises the
    [AttributeError] of the lookup, and no call has been made. *)
Theorem unknown_attribute_rejected (self : instance) (data : DataFrame) (name : string) :
  _plotly_args self !! "type" = Some (PStr name) →
  px name = None →
  unsupported_kind_rejected self data.
Proof.
  intros Htype Hpx S h s. unfold _plot_dataframe, getattr_px.
  rewrite Htype. simpl. rewrite Hpx. simpl. eauto.
Qed.

(** C8.  A run of [_save] is a run of [_plot_dataframe] followed, when a
    figure was built, by a run of the parent class's own [_save] on that
    figure, from the state the construction left: the events are those of
    the two, in order, and nothing else; a failed construction is the
    outcome and the parent is not run.  The parent part of the instance is
    what the parent's constructor makes of the arguments, passed on
    unchanged. *)
Theorem save_is_build_then_codec_save {S : Type} (h : handler S) (s : S)
    (self : instance) (data : DataFrame)
    (filepath : string) (plotly_args : kwargs) (load_args save_args : option kwargs)
    (version : option Version) (credentials fs_args : option kwargs) :
  run h (_save self data) s =
    match run h (_plot_dataframe self data) s with
    | (built, Ok fig, s1) =>
        let '(persisted, r, s2) := run h (JSONDataSet_save (super self) fig) s1 in
        ((built ++ persisted)%list, r, s2)
    | (built, Err e, s1) => (built, Err e, s1)
    end
  ∧ super <$> __init__ filepath plotly_args load_args save_args version credentials fs_args
    = JSONDataSet__init__ filepath load_args save_args version credentials fs_args.
Proof.
  split.
  - unfold _save. apply run_bind.
  - unfold __init__. by destruct (JSONDataSet__init__ _ _ _ _ _ _).
Qed.

Lemma plotly_describe_adds_plotly_args (filepath : string) (plotly_args : kwargs)
    (load_args save_args : option kwargs)
    (version : option Version) (credentials1 fs_args1 credentials2 fs_args2 : option kwargs)
    (self1 self2 : instance) :
  (∀ base1 base2,
     JSONDataSet__init__ filepath load_args save_args version credentials1 fs_args1 = Ok base1 →
     JSONDataSet__init__ filepath load_args save_args version credentials2 fs_args2 = Ok base2 →
     JSONDataSet_describe base1 = JSONDataSet_describe base2) →
  __init__ filepath plotly_args load_args save_args version credentials1 fs_args1 = Ok self1 →
  __init__ filepath plotly_args load_args save_args version credentials2 fs_args2 = Ok self2 →
  _describe self1 = _describe self2.
Proof.
  intros Hparent Hinit1 Hinit2. unfold __init__ in *.
  destruct (JSONDataSet__init__ _ _ _ _ credentials1 _) as [base1|e] eqn:Hb1; [|done].
  destruct (JSONDataSet__init__ _ _ _ _ credentials2 _) as [base2|e] eqn:Hb2; [|done].
  simpl in *. injection Hinit1 as <-. injection Hinit2 as <-.
  unfold _describe. simpl. by rewrite (Hparent base1 base2).
Qed.

Context `{!PlotlyLaws}.

(** C5.  A figure that [_plot_dataframe] returns was made by the chart
    constructor the kind names; its traces are the constructor's; its
    layout is the constructor's layout with the theme (["plotly"] when
    none is given) as ["template"], overridden key by key by the layout
    mapping.  So a title in the layout mapping is the figure's title
    whatever the theme, and the template is the theme unless the layout
    mapping names another. *)
Theorem layout_overrides_theme {S : Type} (h : handler S) (s s' : S) (self : instance)
    (data : DataFrame) (t : list event) (fig : Figure) :
  run h (_plot_dataframe self data) s = (t, Ok fig, s') →
  let theme := default (PStr "plotly") (_plotly_args self !! "theme") in
  ∃ name make kwds fig0 layout,
    _plotly_args self !! "type" = Some (PStr name)
    ∧ px name = Some (ChartConstructor make)
    ∧ make data kwds = Ok fig0
    ∧ layout_updates (default (PDict ∅) (_plotly_args self !! "layout")) = Some layout
    ∧ fig_data fig = fig_data fig0
    ∧ fig_layout fig = layout ∪ <["template" := theme]> (fig_layout fig0)
    ∧ (∀ title, layout !! "title" = Some title → fig_layout fig !! "title" = Some title)
    ∧ (layout !! "template" = None → fig_layout fig !! "template" = Some theme).
Proof.
  intros Hrun theme. unfold _plot_dataframe, getattr_px in Hrun.
  destruct (_plotly_args self !! "type") as [[| | |name| |]|]; simpl in Hrun; try done.
  destruct (px name) as [[make|other|v]|] eqn:Hpx; simpl in Hrun; try done.
  all: destruct (unpack_kwargs _) as [kwds|e]; simpl in Hrun; try done.
  all: destruct (respond h _ s) as [[] s1]; simpl in Hrun.
  2:{ by destruct (other data kwds). }
  destruct (make data kwds) as [fig0|e] eqn:Hmake; simpl in Hrun; [|done].
  destruct (update_layout fig0 _ _) as [fig1|e] eqn:Hfirst; simpl in Hrun; [|done].
  destruct (update_layout fig1 _ _) as [fig2|e] eqn:Hsecond; simpl in Hrun; [|done].
  injection Hrun as <- <- <-.
  destruct (update_layout_sets _ _ _ _ Hfirst) as (d1 & [= <-] & Hdata1 & Hlayout1).
  destruct (update_layout_sets _ _ _ _ Hsecond) as (layout & Hlay & Hdata2 & Hlayout2).
  assert (Hfinal : fig_layout fig2 = layout ∪ <["template" := theme]> (fig_layout fig0)).
  { rewrite Hlayout2, Hlayout1, !(left_id_L ∅ (∪)).
    by rewrite <-insert_union_singleton_l. }
  exists name, make, kwds, fig0, layout. split_and!; try done; try congruence.
  - intros title Htitle. rewrite Hfinal. by apply lookup_union_Some_l.
  - intros Hnone. rewrite Hfinal, lookup_union_r by done. by rewrite lookup_insert_eq.
Qed.

End Charts.

(* ===================================================================== *)
(** * What [describe] shows                                               *)
(* ===================================================================== *)

Section Describe.
Context `{KedroCore} `{Fsspec} `{Plotly} `{JSONDataSet}.

(** C9.  Two [H5pyDataSet] built from the same configuration, credentials
    and [fs_args] apart, describe themselves alike.  [PlotlyDataSet] adds
    [plotly_args] to what its parent class describes, so the same holds of
    it whenever it holds of the parent. *)
Theorem describe_ignores_credentials (filepath : string) (plotly_args : kwargs)
    (load_args save_args : option kwargs) (version : option Version)
    (credentials1 fs_args1 credentials2 fs_args2 : option kwargs) :
  (∀ self1 self2,
     H5pyDataSet.__init__ filepath load_args save_args version credentials1 fs_args1 = Ok self1 →
     H5pyDataSet.__init__ filepath load_args save_args version credentials2 fs_args2 = Ok self2 →
     H5pyDataSet._describe self1 = H5pyDataSet._describe self2)
  ∧ ((∀ base1 base2,
        JSONDataSet__init__ filepath load_args save_args version credentials1 fs_args1 = Ok base1 →
        JSONDataSet__init__ filepath load_args save_args version credentials2 fs_args2 = Ok base2 →
        JSONDataSet_describe base1 = JSONDataSet_describe base2) →
     ∀ self1 self2,
       PlotlyDataSet.__init__ filepath plotly_args load_args save_args version
         credentials1 fs_args1 = Ok self1 →
       PlotlyDataSet.__init__ filepath plotly_args load_args save_args version
         credentials2 fs_args2 = Ok self2 →
       PlotlyDataSet._describe self1 = PlotlyDataSet._describe self2).
Proof.
  split.
  - intros self1 self2. apply h5py_describe_ignores_credentials.
  - intros Hparent self1 self2. by apply plotly_describe_adds_plotly_args.
Qed.

End Describe.

(* ===================================================================== *)
(** * The sample instance keeps the contracts; the theorems at work       *)
(* ===================================================================== *)

Module SampleFacts.
Import Sample.

Lemma toy_parse_dump (c : list toy_obj) : toy_parse (toy_dump c) = Some c.
Proof. induction c as [|[n r [|]] c IH]; simpl; [done|..]; by rewrite IH. Qed.

Lemma toy_read_dump (c : list toy_obj) :
  NoDup (t_name <$> c) → toy_read (toy_magic ++ toy_dump c) = Some c.
Proof.
  intros Hnd. unfold toy_read. simpl.
  rewrite toy_parse_dump. simpl. by rewrite decide_True.
Qed.

Lemma toy_copy_inv (o : toy_obj) (dst dst' : list toy_obj) (fl : copy_flags) :
  toy_copy o dst fl = Ok dst' →
  (t_name o ∉ (t_name <$> dst))
  ∧ dst' = (dst ++ [mkToy (t_name o) (t_raw o) (t_external o && negb (expand_external fl))])%list.
Proof. unfold toy_copy. case_decide; [done|]. by intros [= <-]. Qed.

Lemma toy_File_inv (source : file_source (list toy_obj)) (kwds : kwargs) (c : list toy_obj) :
  @File h5py source kwds = Ok c →
  c = match source with FromFileId fid => fid | FromBytesIO => [] end.
Proof. simpl. case_decide; [|done]. destruct source; by intros [= <-]. Qed.

(** No name twice in a file written through a [BytesIO]. *)
Lemma bio_file_NoDup (c : list toy_obj) : @bio_file h5py c → NoDup (t_name <$> c).
Proof.
  induction 1 as [kwds c Hnew|src value c fl c' _ IH Hcopy].
  - apply toy_File_inv in Hnew as ->. constructor.
  - apply toy_copy_inv in Hcopy as [Hfresh ->].
    rewrite fmap_app. apply NoDup_app. split_and!; [done| |by apply NoDup_singleton].
    by intros x Hx ->%list_elem_of_singleton.
Qed.

Lemma h5py_copy_laws : @H5pyCopyLaws h5py h5py_view.
Proof.
  split.
  - intros kwds c Hnew. apply toy_File_inv in Hnew as ->. by split; [|constructor].
  - intros src value dst fl dst' Hcopy _. apply toy_copy_inv in Hcopy as [_ ->].
    unfold entries. simpl. by rewrite !fmap_app.
  - intros src value dst fl dst' Hcopy (_ & Hext & _) Hdst.
    apply toy_copy_inv in Hcopy as [_ ->]. simpl in *.
    apply Forall_app. split; [done|]. constructor; [|done]. simpl.
    rewrite Hext. by destruct (t_external value).
Qed.

Lemma h5py_reopen_laws : @H5pyReopenLaws h5py h5py_view.
Proof.
  split. intros c name Hbio. split; [done|]. exists c. split_and!.
  - pose proof (toy_read_dump c (bio_file_NoDup c Hbio)) as Hread.
    simpl in Hread |- *. by rewrite Hread.
  - exists c. simpl. rewrite decide_True; [done|].
    by eapply bool_decide_unpack; vm_compute.
  - intros kwds h' Hh'. by apply toy_File_inv in Hh' as ->.
Qed.


(** In the toy library without links every object is listed under its own
    name. *)
Lemma toy_listed_by_own_name (c : list toy_obj) : @listed_by_own_name h5py h5py_view c.
Proof. unfold listed_by_own_name. simpl. rewrite Forall_fmap. by apply Forall_true. Qed.

(** The library with links keeps the same contract. *)
Lemma linked_parse_dump (c : list linked_obj) : linked_parse (linked_dump c) = Some c.
Proof. induction c as [|[k n r] c IH]; simpl; [done|]. by rewrite IH. Qed.

Lemma linked_read_dump (c : list linked_obj) :
  NoDup (l_key <$> c) → linked_read (toy_magic ++ linked_dump c) = Some c.
Proof.
  intros Hnd. unfold linked_read. simpl.
  rewrite linked_parse_dump. simpl. by rewrite decide_True.
Qed.

Lemma linked_copy_inv (o : linked_obj) (dst dst' : list linked_obj) :
  linked_copy o dst = Ok dst' →
  (l_name o ∉ (l_key <$> dst))
  ∧ dst' = (dst ++ [mkLinked (l_name o) (l_name o) (l_raw o)])%list.
Proof. unfold linked_copy. case_decide; [done|]. by intros [= <-]. Qed.

Lemma linked_File_inv (source : file_source (list linked_obj)) (kwds : kwargs)
    (c : list linked_obj) :
  @File linked_h5py source kwds = Ok c →
  c = match source with FromFileId fid => fid | FromBytesIO => [] end.
Proof. simpl. case_decide; [|done]. destruct source; by intros [= <-]. Qed.

Lemma linked_bio_file_NoDup (c : list linked_obj) :
  @bio_file linked_h5py c → NoDup (l_key <$> c).
Proof.
  induction 1 as [kwds c Hnew|src value c fl c' _ IH Hcopy].
  - apply linked_File_inv in Hnew as ->. constructor.
  - apply linked_copy_inv in Hcopy as [Hfresh ->].
    rewrite fmap_app. apply NoDup_app. split_and!; [done| |by apply NoDup_singleton].
    by intros x Hx ->%list_elem_of_singleton.
Qed.

Lemma linked_copy_laws : @H5pyCopyLaws linked_h5py linked_view.
Proof.
  split.
  - intros kwds c Hnew. by apply linked_File_inv in Hnew as ->.
  - intros src value dst fl dst' Hcopy _. apply linked_copy_inv in Hcopy as [_ ->].
    unfold entries. simpl. by rewrite !fmap_app.
  - done.
Qed.

Lemma linked_reopen_laws : @H5pyReopenLaws linked_h5py linked_view.
Proof.
  split. intros c name Hbio. split; [done|]. exists c. split_and!.
  - pose proof (linked_read_dump c (linked_bio_file_NoDup c Hbio)) as Hread.
    simpl in Hread |- *. by rewrite Hread.
  - exists c. simpl. rewrite decide_True; [done|].
    by eapply bool_decide_unpack; vm_compute.
  - intros kwds h' Hh'. by apply linked_File_inv in Hh' as ->.
Qed.

Lemma plotly_laws : @PlotlyLaws plotly.
Proof.
  split. intros fig dict1 kwds fig'. simpl.
  destruct (layout_updates dict1) as [d|]; [|done].
  case_decide; [|done]. intros [= <-]. by exists d.
Qed.

(** The sample parent class describes path, protocol, arguments and
    version: nothing of the credentials. *)
Lemma json_describe_ignores_credentials (filepath : string)
    (load_args save_args : option kwargs) (version : option Version)
    (credentials1 fs_args1 credentials2 fs_args2 : option kwargs)
    (base1 base2 : json_state) :
  @JSONDataSet__init__ json filepath load_args save_args version credentials1 fs_args1 = Ok base1 →
  @JSONDataSet__init__ json filepath load_args save_args version credentials2 fs_args2 = Ok base2 →
  @JSONDataSet_describe json base1 = @JSONDataSet_describe json base2.
Proof.
  cbn -[get_protocol_and_path merge_kwargs fsspec_filesystem].
  destruct (get_protocol_and_path filepath version) as [[protocol path]|e]; [|done].
  cbn -[merge_kwargs fsspec_filesystem].
  destruct (merge_kwargs (default ∅ credentials1) _) as [o1|e]; [|done].
  destruct (merge_kwargs (default ∅ credentials2) _) as [o2|e];
    cbn -[fsspec_filesystem];
    destruct (fsspec_filesystem protocol o1) as [fs1|e1]; try done.
  destruct (fsspec_filesystem protocol o2) as [fs2|e2]; [|done].
  by intros [= <-] [= <-].
Qed.

(** ** The adapters run *)

Example s3_dataset_built :
  H5pyDataSet.__init__ "s3://bucket/a.h5" None None None (Some aws_credentials)
    (Some {[ "open_args_save" := PDict {[ "compression" := PNone ]} ]})
  = Ok s3_dataset.
Proof. by vm_compute. Qed.

Example s3_dataset_append_built :
  H5pyDataSet.__init__ "s3://bucket/a.h5" None None None None
    (Some {[ "anon" := PBool true; "open_args_save" := PDict {[ "mode" := PStr "ab" ]} ]})
  = Ok s3_dataset_append.
Proof. by vm_compute. Qed.

(** Saving a handle and loading it back, through the in-memory world. *)
Example save_then_load :
  outcome_of (run memory (H5pyDataSet._save s3_dataset two_objects;;
                          H5pyDataSet._load s3_dataset) empty_world)
  = Ok [mkToy x61 x01 false; mkToy x62 x02 false].
Proof. by vm_compute. Qed.

Example exists_before_any_save :
  outcome_of (run memory (H5pyDataSet._exists s3_dataset) empty_world) = Ok false.
Proof. by vm_compute. Qed.

(** No version saved yet: the resolver raises, [_exists] answers [False]
    and the filesystem is not asked. *)
Example exists_without_versions :
  run memory (H5pyDataSet._exists versioned_dataset) empty_world
  = ([GetLoadPath "bucket/a.h5" (Some (mkVersion None None))], Ok false, empty_world).
Proof. by vm_compute. Qed.

(** A failing [fs.exists] is not downgraded: it is the outcome. *)
Example exists_propagates_filesystem_errors :
  outcome_of (run unreachable (H5pyDataSet._exists s3_dataset) empty_world)
  = Err (Exn OSError "Connection reset").
Proof. by vm_compute. Qed.

(** The bar chart of the two columns [x] and [y]. *)
Example bar_chart_built :
  run memory (PlotlyDataSet._plot_dataframe (chart bar_args) df) empty_world
  = ([PxInvoke (PStr "bar")], Ok bar_figure, empty_world).
Proof. by vm_compute. Qed.

(** ** The theorems at the sample instance *)

(** A load of the stored container takes the lock after its stream is
    closed and returns what the decoding returns; a save takes it right
    after the save path has resolved. *)
Lemma lock_covers_only_the_library_call_witness :
  (trace_of (run memory (H5pyDataSet._load s3_dataset) stored_world)
   = [GetLoadPath "bucket/a.h5" None; FsOpen (mkFs "s3" aws_credentials) "bucket/a.h5" ∅;
      FsRead 0; FsClose 0;
      LockAcquire H5pyDataSet._lock; H5Library FromBinary; LockRelease H5pyDataSet._lock]
   ∧ outcome_of (run memory (H5pyDataSet._load s3_dataset) stored_world)
     = H5pyDataSet.__h5py_from_binary two_objects_image ∅)
  ∧ ∃ after,
      trace_of (run memory (H5pyDataSet._save s3_dataset two_objects) empty_world)
      = (GetSavePath "bucket/a.h5" None
         :: critical_section H5pyDataSet._lock ToBinary ++ after)%list
      ∧ Forall unlocked after
      ∧ (∀ e, H5pyDataSet.__h5py_to_binary two_objects ∅ = Err e →
           after = []
           ∧ outcome_of (run memory (H5pyDataSet._save s3_dataset two_objects) empty_world)
             = Err e)
      ∧ (∀ binary, H5pyDataSet.__h5py_to_binary two_objects ∅ = Ok binary →
           H5pyDataSet._fs_open_args_save s3_dataset !! "path" = None →
           H5pyDataSet._fs_open_args_save s3_dataset !! "self" = None →
           ∃ rest,
             after = FsOpen (mkFs "s3" aws_credentials) "bucket/a.h5"
                       (H5pyDataSet._fs_open_args_save s3_dataset) :: rest).
Proof.
  split.
  - apply (proj1 (proj2 (proj2
             (@lock_covers_only_the_library_call core h5py world memory stored_world
                s3_dataset two_objects)))
             stored_world stored_world_open stored_world_open stored_world_open
             "bucket/a.h5" ∅ 0 two_objects_image); by vm_compute.
  - apply (proj2 (proj2 (proj2
             (@lock_covers_only_the_library_call core h5py world memory empty_world
                s3_dataset two_objects)))
             empty_world "bucket/a.h5"); by vm_compute.
Defined.


(** ** The codec on a container with a link *)

(** C1.  The codec at a container that holds a dataset [a] and a link [b]
    to a dataset stored under the name [t]: decoding its image returns a
    handle with the entries [a] and [b]; encoding that handle succeeds;
    and decoding the encoding returns a handle with the entries [a] and
    [t].  The content is kept and the name [b] is lost: the loop of the
    encoder drops the key of each entry and gives [copy] no [name], so
    the copy goes by the name of the object. *)
Theorem roundtrip_renames_a_linked_entry :
  @H5pyDataSet.__h5py_from_binary linked_h5py linked_image ∅ = Ok linked_container
  ∧ @H5pyDataSet.__h5py_to_binary linked_h5py linked_container ∅ = Ok linked_encoded
  ∧ @H5pyDataSet.__h5py_from_binary linked_h5py linked_encoded ∅ = Ok linked_reloaded
  ∧ @entries linked_h5py linked_view linked_container = [("a", x01); ("b", x02)]
  ∧ @entries linked_h5py linked_view linked_reloaded = [("a", x01); ("t", x02)]
  ∧ ¬ (@entries linked_h5py linked_view linked_reloaded
       ≡ₚ @entries linked_h5py linked_view linked_container).
Proof.
  split_and!; try by vm_compute.
  intros Hperm.
  assert (Hb : ("b", x02) ∈ @entries linked_h5py linked_view linked_reloaded).
  { rewrite Hperm. apply list_elem_of_further, list_elem_of_here. }
  vm_compute in Hb. set_unfold. by destruct Hb as [|[|[]]].
Qed.

(** C6.  The encoder at the same handle, the options empty: the file it
    fills, starting from an empty one, ends with the entries [a] and [t],
    and its bytes are what the encoding returns.  The object behind the
    link was copied, under its own name; no entry of the output goes by
    the key [b] of the handle. *)
Theorem encode_loses_the_key_of_a_link :
  ∃ biof : list linked_obj,
    @H5pyDataSet.copy_items linked_h5py linked_container
      (@items linked_h5py linked_container) [] = Ok biof
    ∧ @H5pyDataSet.__h5py_to_binary linked_h5py linked_container ∅
      = Ok (@getvalue linked_h5py biof)
    ∧ @entries linked_h5py linked_view linked_container = [("a", x01); ("b", x02)]
    ∧ @entries linked_h5py linked_view biof = [("a", x01); ("t", x02)]
    ∧ "b" ∉ (@items linked_h5py biof).*1.
Proof.
  exists linked_reloaded. split_and!; try by vm_compute.
  vm_compute. set_unfold. by intros [|[|[]]].
Qed.

(** Encoding the two-object container: both objects copied, the external
    link expanded. *)
Lemma encode_copies_objects_by_own_name_witness :
  H5pyDataSet.__h5py_to_binary two_objects ∅ = Ok two_objects_encoded
  ∧ ∃ fresh biof,
      File FromBytesIO (<["mode" := PStr "w"]> ∅) = Ok fresh
      ∧ entries fresh = []
      ∧ copies_all two_objects H5pyDataSet.expand_all (items two_objects).*2 fresh biof
      ∧ entries biof ≡ₚ (λ kv, (obj_name kv.2, obj_content kv.2)) <$> items two_objects
      ∧ (listed_by_own_name two_objects → entries biof ≡ₚ entries two_objects)
      ∧ self_contained biof
      ∧ two_objects_encoded = getvalue biof.
Proof.
  assert (Henc : H5pyDataSet.__h5py_to_binary two_objects ∅ = Ok two_objects_encoded)
    by (vm_compute; reflexivity).
  split; [done|].
  exact (proj1 (@encode_copies_objects_by_own_name h5py h5py_view h5py_copy_laws
                  two_objects ∅)
           two_objects_encoded Henc).
Defined.

(** The two-object container round-trips: its encoding opens again and
    shows both entries.  The container with a link does not: what is
    decoded from its encoding lists the object behind [b] as [t]. *)
Lemma roundtrip_lists_objects_by_own_name_witness :
  ((listed_by_own_name two_objects
    ∧ H5pyDataSet.__h5py_to_binary two_objects ∅ = Ok two_objects_encoded)
   ∧ (∃ h', H5pyDataSet.__h5py_from_binary two_objects_encoded H5pyDataSet.DEFAULT_LOAD_ARGS
              = Ok h')
   ∧ (∀ load_args h',
        H5pyDataSet.__h5py_from_binary two_objects_encoded load_args = Ok h' →
        entries h' ≡ₚ entries two_objects))
  ∧ (@H5pyDataSet.__h5py_to_binary linked_h5py linked_container ∅ = Ok linked_encoded
     ∧ ∀ load_args h',
         @H5pyDataSet.__h5py_from_binary linked_h5py linked_encoded load_args = Ok h' →
         @entries linked_h5py linked_view h' ≡ₚ [("a", x01); ("t", x02)]).
Proof.
  assert (Hown : listed_by_own_name two_objects) by apply toy_listed_by_own_name.
  assert (Henc : H5pyDataSet.__h5py_to_binary two_objects ∅ = Ok two_objects_encoded)
    by (vm_compute; reflexivity).
  assert (Hlinked : @H5pyDataSet.__h5py_to_binary linked_h5py linked_container ∅
                    = Ok linked_encoded)
    by (vm_compute; reflexivity).
  destruct (@roundtrip_lists_objects_by_own_name h5py h5py_view h5py_copy_laws
              h5py_reopen_laws two_objects ∅ two_objects_encoded Henc)
    as [Hdefault Hany].
  destruct (@roundtrip_lists_objects_by_own_name linked_h5py linked_view linked_copy_laws
              linked_reopen_laws linked_container ∅ linked_encoded Hlinked)
    as [_ Hrenamed].
  split_and!; try done.
  - intros load_args h' Hh'. by apply (Hany load_args h' Hh').
  - intros load_args h' Hh'. exact (proj1 (Hrenamed load_args h' Hh')).
Defined.

(** The kind of the specification's example, which the namespace lacks. *)
Lemma unknown_attribute_rejected_witness :
  (PlotlyDataSet._plotly_args (chart {[ "type" := PStr "not_a_chart" ]}) !! "type"
     = Some (PStr "not_a_chart")
   ∧ px "not_a_chart" = None)
  ∧ unsupported_kind_rejected (chart {[ "type" := PStr "not_a_chart" ]}) df.
Proof.
  assert (Htype : PlotlyDataSet._plotly_args (chart {[ "type" := PStr "not_a_chart" ]}) !! "type"
                  = Some (PStr "not_a_chart")) by (vm_compute; reflexivity).
  assert (Hpx : px "not_a_chart" = None) by (vm_compute; reflexivity).
  split; [by split|].
  exact (@unknown_attribute_rejected plotly json _ df "not_a_chart" Htype Hpx).
Defined.

(** C2, as stated, fails.  Neither ["set_mapbox_access_token"] nor
    ["data"] names a chart constructor, and both are attributes of the
    namespace.  The first, a helper function, is looked up and called on
    the data before anything fails; the second, a submodule, is looked up
    and the attempt to call it is a [TypeError], not the error of a failed
    lookup. *)
Lemma helper_attribute_is_invoked :
  (names_chart_constructor (PStr "set_mapbox_access_token") = false
   ∧ ¬ unsupported_kind_rejected (chart {[ "type" := PStr "set_mapbox_access_token" ]}) df
   ∧ trace_of (run memory (PlotlyDataSet._plot_dataframe
                             (chart {[ "type" := PStr "set_mapbox_access_token" ]}) df)
                 empty_world)
     = [PxInvoke (PStr "set_mapbox_access_token")])
  ∧ (names_chart_constructor (PStr "data") = false
     ∧ ¬ unsupported_kind_rejected (chart {[ "type" := PStr "data" ]}) df
     ∧ outcome_of (run memory (PlotlyDataSet._plot_dataframe
                                 (chart {[ "type" := PStr "data" ]}) df)
                     empty_world)
       = Err (Exn TypeError "object is not callable")).
Proof.
  split; (split_and!; [done| |by vm_compute]); intros Hclaim;
    destruct (Hclaim world memory empty_world) as [msg Hrun];
    vm_compute in Hrun; discriminate Hrun.
Qed.

(** The bar chart with theme [ggplot2] and a layout title. *)
Lemma layout_overrides_theme_witness :
  run memory (PlotlyDataSet._plot_dataframe (chart bar_args) df) empty_world
    = ([PxInvoke (PStr "bar")], Ok bar_figure, empty_world)
  ∧ fig_layout bar_figure !! "title" = Some (PStr "T")
  ∧ fig_layout bar_figure !! "template" = Some (PStr "ggplot2").
Proof.
  assert (Hrun : run memory (PlotlyDataSet._plot_dataframe (chart bar_args) df) empty_world
                 = ([PxInvoke (PStr "bar")], Ok bar_figure, empty_world))
    by (vm_compute; reflexivity).
  split; [done|].
  destruct (@layout_overrides_theme plotly json plotly_laws world memory
              empty_world empty_world (chart bar_args) df _ bar_figure Hrun)
    as (name & make & kwds & fig0 & layout & _ & _ & _ & Hlayout & _ & _ & Htitle & Htemplate).
  injection Hlayout as <-. split.
  - apply Htitle. by vm_compute.
  - apply Htemplate. by vm_compute.
Defined.

(** Two credentials, two [fs_args], one description. *)
Lemma describe_ignores_credentials_witness :
  H5pyDataSet._describe s3_dataset = H5pyDataSet._describe s3_dataset_append
  ∧ ∀ self1 self2,
      PlotlyDataSet.__init__ "s3://bucket/plot.json" bar_args None None None
        (Some aws_credentials) None = Ok self1 →
      PlotlyDataSet.__init__ "s3://bucket/plot.json" bar_args None None None
        None (Some {[ "anon" := PBool true ]}) = Ok self2 →
      PlotlyDataSet._describe self1 = PlotlyDataSet._describe self2.
Proof.
  destruct (@describe_ignores_credentials core fsspec json
              "s3://bucket/a.h5" bar_args None None None
              (Some aws_credentials)
              (Some {[ "open_args_save" := PDict {[ "compression" := PNone ]} ]})
              None
              (Some {[ "anon" := PBool true; "open_args_save" := PDict {[ "mode" := PStr "ab" ]} ]}))
    as [Hh5 _].
  destruct (@describe_ignores_credentials core fsspec json
              "s3://bucket/plot.json" bar_args None None None
              (Some aws_credentials) None None (Some {[ "anon" := PBool true ]}))
    as [_ Hplotly].
  split.
  - apply Hh5; by vm_compute.
  - apply Hplotly. intros base1 base2. apply json_describe_ignores_credentials.
Defined.

(** No mode given: ["wb"].  The caller's ["ab"]: kept. *)
Lemma save_stream_mode_witness :
  H5pyDataSet._fs_open_args_save s3_dataset !! "mode" = Some (PStr "wb")
  ∧ H5pyDataSet._fs_open_args_save s3_dataset_append !! "mode" = Some (PStr "ab")
  ∧ FsOpen (H5pyDataSet._fs s3_dataset) "bucket/a.h5" (H5pyDataSet._fs_open_args_save s3_dataset)
      ∈ trace_of (run memory (H5pyDataSet._save s3_dataset two_objects) empty_world).
Proof.
  destruct (@save_stream_mode core fsspec h5py _ _ _ _ _ _ s3_dataset s3_dataset_built)
    as (Hdefault & _ & _ & _ & Hopened).
  destruct (@save_stream_mode core fsspec h5py _ _ _ _ _ _ s3_dataset_append
              s3_dataset_append_built)
    as (_ & Hkept & _).
  split_and!.
  - apply Hdefault. by vm_compute.
  - apply Hkept. by vm_compute.
  - apply (Hopened world memory empty_world empty_world two_objects "bucket/a.h5"
             two_objects_encoded); by vm_compute.
Defined.

End SampleFacts.

(* ===================================================================== *)
(** * More of the binary-container adapter: construction                  *)
(* ===================================================================== *)

Section Construction.
Context `{KedroCore} `{Fsspec} `{H5py}.
Import H5pyDataSet.

(** [__init__] as the four steps that can fail, in their order. *)
Lemma init_steps (filepath : string) (load_args save_args : option kwargs)
    (version : option Version) (credentials fs_args : option kwargs) :
  __init__ filepath load_args save_args version credentials fs_args =
    '(protocol, path) ← get_protocol_and_path filepath version;
    fs ← call_filesystem protocol (default ∅ credentials) (filesystem_args protocol fs_args);
    open_args_save ← py_setdefault "mode" (PStr "wb")
                        (default (PDict ∅) (default ∅ fs_args !! "open_args_save"));
    Ok (mkInstance protocol fs (PurePosixPath path) version
          (dict_update DEFAULT_LOAD_ARGS (default ∅ load_args))
          (dict_update DEFAULT_SAVE_ARGS (default ∅ save_args))
          (default (PDict ∅) (default ∅ fs_args !! "open_args_load"))
          open_args_save).
Proof.
  unfold __init__, dict_pop, filesystem_args. simpl.
  destruct (get_protocol_and_path filepath version) as [[protocol path]|e]; [simpl|done].
  destruct (call_filesystem _ _ _) as [fs|e]; [simpl|done].
  rewrite lookup_delete_ne by done.
  destruct (py_setdefault _ _ _) as [open_args_save|e]; [simpl|done].
  do 2 f_equal.
  - destruct load_args; simpl; [done|]. unfold dict_update. by rewrite (left_id_L ∅ (∪)).
  - destruct save_args; simpl; [done|]. unfold dict_update. by rewrite (left_id_L ∅ (∪)).
Qed.

Lemma call_filesystem_inv (protocol : string) (credentials fs_args : kwargs) (fs : filesystem) :
  call_filesystem protocol credentials fs_args = Ok fs →
  credentials ##ₘ fs_args ∧ fs = mkFs protocol (credentials ∪ fs_args).
Proof.
  unfold call_filesystem, merge_kwargs. case_decide; [simpl|done].
  case_decide; [done|]. unfold fsspec_filesystem.
  destruct (filesystem_rejects _ _); [done|]. by intros [= <-].
Qed.

Lemma filesystem_args_lookup (protocol : string) (fs_args : option kwargs) (key : string) :
  filesystem_args protocol fs_args !! key =
    if decide (key = "open_args_load" ∨ key = "open_args_save") then None
    else match default ∅ fs_args !! key with
         | Some v => Some v
         | None => if decide (protocol = "file" ∧ key = "auto_mkdir") then Some (PBool true)
                   else None
         end.
Proof.
  unfold filesystem_args.
  set (given := default ∅ fs_args).
  set (rest := delete "open_args_save" (delete "open_args_load" given)).
  assert (Hrest : ∀ k, rest !! k
                       = if decide (k = "open_args_load" ∨ k = "open_args_save") then None
                         else given !! k).
  { intros k. subst rest.
    destruct (decide (k = "open_args_save")) as [->|Hsave].
    { by rewrite lookup_delete_eq, decide_True by auto. }
    rewrite lookup_delete_ne by done.
    destruct (decide (k = "open_args_load")) as [->|Hload].
    { by rewrite lookup_delete_eq, decide_True by auto. }
    rewrite lookup_delete_ne by done. by rewrite decide_False by intuition congruence. }
  destruct (decide (protocol = "file")) as [Hfile|Hfile].
  2:{ rewrite Hrest. case_decide; [done|]. destruct (given !! key); [done|].
      by rewrite decide_False by intuition congruence. }
  unfold dict_setdefault.
  assert (Hauto : rest !! "auto_mkdir" = given !! "auto_mkdir").
  { rewrite Hrest. by rewrite decide_False by intuition congruence. }
  rewrite Hauto. destruct (given !! "auto_mkdir") as [a|] eqn:Ha.
  - rewrite Hrest. case_decide; [done|]. destruct (given !! key) eqn:Hk; [done|].
    rewrite decide_False; [done|]. intros [_ ->]. congruence.
  - destruct (decide (key = "auto_mkdir")) as [->|Hne].
    + rewrite lookup_insert_eq, decide_False, Ha, decide_True by intuition congruence. done.
    + rewrite lookup_insert_ne by done. rewrite Hrest. case_decide; [done|].
      destruct (given !! key); [done|]. by rewrite decide_False by intuition congruence.
Qed.

(** X1.  The filesystem of a constructed dataset is built for the
    dataset's protocol with every credential, every [fs_args] entry other
    than the nested [open_args_load] and [open_args_save], and nothing
    else, except [auto_mkdir = True] on the local filesystem when the
    caller did not set it.  The two nested mappings never reach the
    filesystem constructor from [fs_args]. *)
Theorem filesystem_gets_credentials_and_fs_args (filepath : string)
    (load_args save_args : option kwargs) (version : option Version)
    (credentials fs_args : option kwargs) (self : instance) :
  __init__ filepath load_args save_args version credentials fs_args = Ok self →
  let options := fs_storage_options (_fs self) in
  fs_protocol (_fs self) = _protocol self
  ∧ (∀ key v, default ∅ credentials !! key = Some v → options !! key = Some v)
  ∧ (∀ key v, key ≠ "open_args_load" → key ≠ "open_args_save" →
       default ∅ fs_args !! key = Some v → options !! key = Some v)
  ∧ (∀ key, key = "open_args_load" ∨ key = "open_args_save" →
       options !! key = default ∅ credentials !! key)
  ∧ (∀ key v, options !! key = Some v →
       default ∅ credentials !! key = Some v
       ∨ default ∅ fs_args !! key = Some v
       ∨ (_protocol self = "file" ∧ key = "auto_mkdir" ∧ v = PBool true))
  ∧ (_protocol self = "file" →
       options !! "auto_mkdir" = Some (default (PBool true) (default ∅ fs_args !! "auto_mkdir"))).
Proof.
  rewrite init_steps. intros Hinit options.
  destruct (get_protocol_and_path filepath version) as [[protocol path]|e]; [simpl in *|done].
  destruct (call_filesystem _ _ _) as [fs|e] eqn:Hfs; [simpl in *|done].
  destruct (py_setdefault _ _ _) as [open_args_save|e]; [simpl in *|done].
  injection Hinit as <-. subst options. simpl.
  apply call_filesystem_inv in Hfs as [Hdisj ->]. simpl.
  assert (Hlook : ∀ key, (default ∅ credentials ∪ filesystem_args protocol fs_args) !! key
                         = match default ∅ credentials !! key with
                           | Some v => Some v
                           | None => filesystem_args protocol fs_args !! key
                           end).
  { intros key. rewrite lookup_union. by destruct (_ !! key), (_ !! key). }
  split_and!.
  - done.
  - intros key v Hkey. by rewrite Hlook, Hkey.
  - intros key v Hload Hsave Hkey. rewrite Hlook.
    destruct (default ∅ credentials !! key) as [w|] eqn:Hcred.
    + pose proof (map_disjoint_Some_l _ _ _ _ Hdisj Hcred) as Hnone.
      rewrite filesystem_args_lookup, decide_False, Hkey in Hnone by intuition congruence. done.
    + rewrite filesystem_args_lookup, decide_False, Hkey by intuition congruence. done.
  - intros key Hkey. rewrite Hlook, filesystem_args_lookup, decide_True by done.
    by destruct (_ !! key).
  - intros key v. rewrite Hlook. destruct (default ∅ credentials !! key); [by left|].
    rewrite filesystem_args_lookup. case_decide; [done|].
    destruct (default ∅ fs_args !! key); [by right; left|].
    case_decide as Hc; [|done]. intros [= <-]. right; right. intuition congruence.
  - intros ->. rewrite Hlook.
    destruct (default ∅ credentials !! "auto_mkdir") as [w|] eqn:Hcred.
    + pose proof (map_disjoint_Some_l _ _ _ _ Hdisj Hcred) as Hnone.
      rewrite filesystem_args_lookup, decide_False in Hnone by intuition congruence.
      destruct (default ∅ fs_args !! "auto_mkdir"); [done|].
      by rewrite decide_True in Hnone.
    + rewrite filesystem_args_lookup, decide_False by intuition congruence.
      destruct (default ∅ fs_args !! "auto_mkdir"); [done|]. by rewrite decide_True.
Qed.

(** X2.  When the location parses, a key given both in the credentials
    and in [fs_args] (the nested mappings apart) makes construction raise
    [TypeError]; so does [auto_mkdir] in the credentials of a dataset on
    the local filesystem, whatever [fs_args] holds. *)
Theorem init_rejects_keys_given_twice (filepath : string)
    (load_args save_args : option kwargs) (version : option Version)
    (credentials fs_args : option kwargs) (protocol path key : string) :
  get_protocol_and_path filepath version = Ok (protocol, path) →
  is_Some (default ∅ credentials !! key) →
  (key ≠ "open_args_load" ∧ key ≠ "open_args_save" ∧ is_Some (default ∅ fs_args !! key))
  ∨ (protocol = "file" ∧ key = "auto_mkdir") →
  ∃ msg, __init__ filepath load_args save_args version credentials fs_args
         = Err (Exn TypeError msg).
Proof.
  intros Hpath [v Hcred] Hclash. rewrite init_steps, Hpath. simpl.
  unfold call_filesystem, merge_kwargs.
  rewrite decide_False; [simpl; eauto|].
  intros Hdisj. pose proof (map_disjoint_Some_l _ _ _ _ Hdisj Hcred) as Hnone.
  rewrite filesystem_args_lookup in Hnone.
  destruct Hclash as [(Hload & Hsave & [w Hw])|[-> ->]].
  - rewrite decide_False, Hw in Hnone by intuition congruence. done.
  - rewrite decide_False in Hnone by intuition congruence.
    destruct (default ∅ fs_args !! "auto_mkdir"); [done|]. by rewrite decide_True in Hnone.
Qed.

(** X3.  A configuration that constructs stops constructing once
    [open_args_save] is set to a value that is not a mapping: the
    constructor raises [AttributeError]. *)
Theorem init_rejects_non_mapping_open_args_save (filepath : string)
    (load_args save_args : option kwargs) (version : option Version)
    (credentials : option kwargs) (fs_args : kwargs) (v : pyval) (self0 : instance) :
  (∀ d, v ≠ PDict d) →
  __init__ filepath load_args save_args version credentials
    (Some (delete "open_args_save" fs_args)) = Ok self0 →
  ∃ msg, __init__ filepath load_args save_args version credentials
           (Some (<["open_args_save" := v]> fs_args))
         = Err (Exn AttributeError msg).
Proof.
  intros Hv. rewrite !init_steps.
  destruct (get_protocol_and_path filepath version) as [[protocol path]|e]; [simpl|done].
  assert (Hsame : filesystem_args protocol (Some (<["open_args_save" := v]> fs_args))
                  = filesystem_args protocol (Some (delete "open_args_save" fs_args))).
  { apply map_eq. intros key. rewrite !filesystem_args_lookup. simpl.
    case_decide; [done|]. rewrite lookup_insert_ne, lookup_delete_ne by intuition congruence. done. }
  rewrite Hsame.
  destruct (call_filesystem _ _ _) as [fs|e]; [simpl|done].
  intros _. rewrite lookup_insert_eq. simpl.
  destruct v; simpl; eauto. by destruct (Hv d).
Qed.
End Construction.

(* ===================================================================== *)
(** * More of the binary-container adapter: streams                       *)
(* ===================================================================== *)

Section Streams.
Context `{KedroCore} `{Fsspec} `{H5py}.
Import H5pyDataSet.

(** X4.  An [open_args_load] that is not a mapping is kept by the
    constructor and refused by every load: the load fails, with
    [TypeError] once the path has resolved, and no stream is opened and
    the lock is not taken. *)
Theorem load_rejects_non_mapping_open_args {S : Type} (h : handler S) (s : S)
    (self : instance) :
  (∀ d, _fs_open_args_load self ≠ PDict d) →
  Forall (λ ev, is_stream_io ev = false ∧ unlocked ev) (trace_of (run h (_load self) s))
  ∧ (∃ e, outcome_of (run h (_load self) s) = Err e)
  ∧ (∀ p s1, respond h (GetLoadPath (_filepath self) (_version self)) s = (Ok p, s1) →
       ∃ msg, run h (_load self) s
              = ([GetLoadPath (_filepath self) (_version self)], Err (Exn TypeError msg), s1)).
Proof.
  intros Hodd. unfold _load, get_load_path. simpl.
  assert (Hunpack : ∃ msg, unpack_kwargs (_fs_open_args_load self) = Err (Exn TypeError msg)).
  { destruct (_fs_open_args_load self); simpl; eauto. by destruct (Hodd d). }
  destruct Hunpack as [msg ->].
  destruct (respond h _ s) as [[p|e] s1]; simpl.
  - split_and!; [by repeat constructor|eauto|]. intros ? ? [= <- <-]. eauto.
  - split_and!; [by repeat constructor|eauto|]. by intros ? ? [=].
Qed.


(** X6.  A load or a save opens at most one stream, and a stream that was
    opened is closed, also when the read or the write raised.  In every
    run the byte-stream events are none, a lone open of a run that failed,
    or open, read (write), close of one stream.  And by cases on what the
    filesystem answers to the open, once the path has resolved (and, in a
    save, the data is encoded): when the open raises, the run ends there
    with that exception; when it returns a stream, the read (the write of
    the encoding) and the close of that stream follow at once, and no
    other byte-stream event after them; when the read (the write) raises
    and the close returns, the run ends after the close with the
    exception of the read (the write). *)
Theorem streams_are_closed {S : Type} (h : handler S) (s : S) (self : instance)
    (data : h5file) :
  (List.filter is_stream_io (trace_of (run h (_load self) s)) = []
   ∨ (∃ fs path open_args,
        List.filter is_stream_io (trace_of (run h (_load self) s))
        = [FsOpen fs path open_args]
        ∧ ∃ e, outcome_of (run h (_load self) s) = Err e)
   ∨ ∃ fs path open_args f,
       List.filter is_stream_io (trace_of (run h (_load self) s))
       = [FsOpen fs path open_args; FsRead f; FsClose f])
  ∧ (List.filter is_stream_io (trace_of (run h (_save self data) s)) = []
     ∨ (∃ fs path open_args,
          List.filter is_stream_io (trace_of (run h (_save self data) s))
          = [FsOpen fs path open_args]
          ∧ ∃ e, outcome_of (run h (_save self data) s) = Err e)
     ∨ ∃ fs path open_args f binary,
         List.filter is_stream_io (trace_of (run h (_save self data) s))
         = [FsOpen fs path open_args; FsWrite f binary; FsClose f])
  ∧ (∀ (s1 : S) (p : string) (open_args : kwargs),
       respond h (GetLoadPath (_filepath self) (_version self)) s = (Ok p, s1) →
       unpack_kwargs (_fs_open_args_load self) = Ok open_args →
       open_args !! "path" = None → open_args !! "self" = None →
       let resolve := GetLoadPath (_filepath self) (_version self) in
       let opening := FsOpen (_fs self) (get_filepath_str p (_protocol self)) open_args in
       (∀ e s2,
          respond h opening s1 = (Err e, s2) →
          run h (_load self) s = ([resolve; opening], Err e, s2))
       ∧ (∀ f s2,
            respond h opening s1 = (Ok f, s2) →
            ∃ rest,
              trace_of (run h (_load self) s)
              = ([resolve; opening; FsRead f; FsClose f] ++ rest)%list
              ∧ Forall (λ ev, is_stream_io ev = false) rest)
       ∧ (∀ f s2 e s3 s4,
            respond h opening s1 = (Ok f, s2) →
            respond h (FsRead f) s2 = (Err e, s3) →
            respond h (FsClose f) s3 = (Ok (), s4) →
            run h (_load self) s = ([resolve; opening; FsRead f; FsClose f], Err e, s4)))
  ∧ (∀ (s1 : S) (p : string) (binary : RawBytes),
       respond h (GetSavePath (_filepath self) (_version self)) s = (Ok p, s1) →
       __h5py_to_binary data (_save_args self) = Ok binary →
       _fs_open_args_save self !! "path" = None →
       _fs_open_args_save self !! "self" = None →
       let encoded :=
         (GetSavePath (_filepath self) (_version self)
          :: critical_section _lock ToBinary)%list in
       let s4 :=
         (respond h (LockRelease _lock)
            (respond h (H5Library ToBinary) (respond h (LockAcquire _lock) s1).2).2).2 in
       let opening :=
         FsOpen (_fs self) (get_filepath_str p (_protocol self)) (_fs_open_args_save self) in
       (∀ e s5,
          respond h opening s4 = (Err e, s5) →
          run h (_save self data) s = ((encoded ++ [opening])%list, Err e, s5))
       ∧ (∀ f s5,
            respond h opening s4 = (Ok f, s5) →
            ∃ rest,
              trace_of (run h (_save self data) s)
              = (encoded ++ [opening; FsWrite f binary; FsClose f] ++ rest)%list
              ∧ Forall (λ ev, is_stream_io ev = false) rest)
       ∧ (∀ f s5 e s6 s7,
            respond h opening s4 = (Ok f, s5) →
            respond h (FsWrite f binary) s5 = (Err e, s6) →
            respond h (FsClose f) s6 = (Ok (), s7) →
            run h (_save self data) s
            = ((encoded ++ [opening; FsWrite f binary; FsClose f])%list, Err e, s7))).
Proof.
  split_and!.
  - unfold _load, with_lock, with_open, call_open, get_load_path, h5py_call.
    simpl. repeat answer h; unfold trace_of, outcome_of; simpl;
      first [ by left | by right; left; eauto 10 | by right; right; eauto 10 ].
  - unfold _save, _invalidate_cache, with_lock, with_open, call_open, get_save_path, h5py_call.
    simpl. repeat answer h; unfold trace_of, outcome_of; simpl;
      first [ by left | by right; left; eauto 10 | by right; right; eauto 10 ].
  - intros s1 p open_args Hresolve Hargs Hpath _ resolve opening. subst resolve opening.
    unfold _load, with_lock, with_open, call_open, get_load_path, h5py_call.
    simpl. rewrite Hresolve. simpl. rewrite Hargs. simpl.
    rewrite decide_False by (rewrite Hpath; by intros [? [=]]). simpl.
    split_and!.
    + intros e s2 ->. done.
    + intros f s2 ->. simpl.
      repeat answer h; unfold trace_of; simpl;
        (eexists; split; [reflexivity|solve [repeat constructor]]).
    + intros f s2 e s3 s4 -> Hread Hclose. simpl. rewrite Hread. simpl.
      by rewrite Hclose.
  - intros s1 p binary Hresolve Hencode Hpath _ encoded s4 opening.
    subst encoded s4 opening.
    unfold _save, _invalidate_cache, with_lock, with_open, call_open, get_save_path, h5py_call.
    simpl. rewrite Hresolve. simpl.
    destruct (respond h (LockAcquire _lock) s1) as [[] s2]. simpl.
    destruct (respond h (H5Library ToBinary) s2) as [[] s3]. simpl.
    rewrite Hencode. simpl.
    destruct (respond h (LockRelease _lock) s3) as [[] s4]. simpl.
    rewrite decide_False by (rewrite Hpath; by intros [? [=]]). simpl.
    split_and!.
    + intros e s5 ->. done.
    + intros f s5 ->. simpl.
      repeat answer h; unfold trace_of; simpl;
        (eexists; split; [reflexivity|solve [repeat constructor]]).
    + intros f s5 e s6 s7 -> Hwrite Hclose. simpl. rewrite Hwrite. simpl.
      by rewrite Hclose.
Qed.

(** X7.  What a save writes is the encoding of the data: a write in the
    trace carries the bytes [__h5py_to_binary] returned.  When the encoding
    raises, the save fails without touching a stream or a cache. *)
Theorem save_writes_the_encoding {S : Type} (h : handler S) (s : S) (self : instance)
    (data : h5file) :
  (∀ f written,
     FsWrite f written ∈ trace_of (run h (_save self data) s) →
     __h5py_to_binary data (_save_args self) = Ok written)
  ∧ (∀ e,
       __h5py_to_binary data (_save_args self) = Err e →
       Forall (λ ev, is_stream_io ev = false ∧ is_cache_invalidation ev = false)
         (trace_of (run h (_save self data) s))
       ∧ ∃ e', outcome_of (run h (_save self data) s) = Err e').
Proof.
  unfold _save, _invalidate_cache, with_lock, with_open, call_open, get_save_path, h5py_call.
  simpl. split.
  - intros f written.
    repeat answer h; unfold trace_of; simpl;
      rewrite ?elem_of_cons, ?elem_of_nil; intros Hin;
      repeat (destruct Hin as [Hin|Hin]; try done); by injection Hin as -> ->.
  - intros e He. rewrite He.
    repeat answer h; unfold trace_of, outcome_of; simpl;
      (split; [by repeat constructor|eauto]).
Qed.


(** X9.  [_release] runs the parent's release and then invalidates the
    cache of the dataset's own filepath; when the parent's release raises,
    the cache is left alone and the exception is the outcome. *)
Theorem release_invalidates_own_path {S : Type} (h : handler S) (s : S) (self : instance)
    (super_release : prog unit) :
  let own := FsInvalidateCache (_fs self) (get_filepath_str (_filepath self) (_protocol self)) in
  run h (_release super_release self) s =
    match run h super_release s with
    | (released, Ok _, s1) =>
        let '(invalidated, s2) := respond h own s1 in
        ((released ++ [own])%list, invalidated, s2)
    | (released, Err e, s1) => (released, Err e, s1)
    end.
Proof.
  intros own. unfold _release. rewrite run_bind.
  destruct (run h super_release s) as [[released [[]|e]] s1]; [|done].
  unfold _invalidate_cache, fs_invalidate_cache. simpl. fold own.
  by destruct (respond h own s1) as [[[]|e] s2].
Qed.
End Streams.

(* ===================================================================== *)
(** * More of the codec: arguments and failures                           *)
(* ===================================================================== *)

Section CodecArguments.
Context `{H5py}.
Import H5pyDataSet.

(** X10.  Decoding always opens the file read-only, on the core driver,
    without a backing store, and passes every [load_args] entry along.  A
    [load_args] that names [mode], [driver], [backing_store] or [name]
    cannot override them: once the image has opened, the call raises
    [TypeError].  (The image of an empty buffer is never opened: that
    buffer is refused first, with [ValueError].) *)
Theorem decode_opens_read_only_in_memory (binary : RawBytes) (load_args : kwargs) :
  (∀ h,
     __h5py_from_binary binary load_args = Ok h →
     ∃ fid kwds,
       h5f_open (String.list_byte_of_string candidate_name) ACC_RDONLY (image_fapl binary)
         = Ok fid
       ∧ File (FromFileId fid) kwds = Ok h
       ∧ kwds !! "mode" = Some (PStr "r")
       ∧ kwds !! "driver" = Some (PStr "core")
       ∧ kwds !! "backing_store" = Some (PBool false)
       ∧ (∀ key v, load_args !! key = Some v → kwds !! key = Some v))
  ∧ (∀ key fid,
       key ∈ ["mode"; "driver"; "backing_store"; "name"] →
       is_Some (load_args !! key) →
       binary ≠ [] →
       h5f_open (String.list_byte_of_string candidate_name) ACC_RDONLY (image_fapl binary)
         = Ok fid →
       ∃ msg, __h5py_from_binary binary load_args = Err (Exn TypeError msg))
  ∧ (binary = [] → ∃ msg, __h5py_from_binary binary load_args = Err (Exn ValueError msg)).
Proof.
  unfold __h5py_from_binary.
  destruct binary as [|b0 binary]; [by split_and!; [..|simpl; eauto]|].
  simpl. change (mkFapl _ _) with (image_fapl (b0 :: binary)).
  split_and!; [| |done].
  - intros h. destruct (h5f_open _ _ _) as [fid|e]; [simpl|done].
    unfold merge_kwargs. case_decide as Hdisj; [simpl|done].
    unfold call_File. case_decide; [done|]. intros Hfile.
    exists fid, (h5_file_args ∪ load_args). split_and!; try done.
    + by apply lookup_union_Some_l.
    + by apply lookup_union_Some_l.
    + by apply lookup_union_Some_l.
    + intros key v Hkey. by apply lookup_union_Some_r.
  - intros key fid Hkey [v Hv] _ ->. simpl. unfold merge_kwargs.
    case_decide as Hdisj; simpl; [|eauto].
    unfold call_File.
    destruct (decide (key = "name")) as [->|Hname].
    { rewrite decide_True; [eauto|]. exists v. by apply lookup_union_Some_r. }
    assert (Hfixed : is_Some (h5_file_args !! key)).
    { set_unfold. destruct Hkey as [->|[->|[->|[->|[]]]]]; try done; by eexists. }
    destruct Hfixed as [w Hw]. by pose proof (map_disjoint_Some_l _ _ _ _ Hdisj Hw); simplify_eq.
Qed.

(** X11.  A [save_args] that names [mode] or [name] makes every encoding
    raise [TypeError]: the file is always created in mode ["w"] on the
    fresh buffer. *)
Theorem encode_rejects_mode_and_name (h5f : h5file) (save_args : kwargs) (key : string) :
  key = "mode" ∨ key = "name" →
  is_Some (save_args !! key) →
  ∃ msg, __h5py_to_binary h5f save_args = Err (Exn TypeError msg).
Proof.
  intros Hkey Hgiven. unfold __h5py_to_binary, call_File.
  destruct (decide (is_Some (save_args !! "name"))); [simpl; eauto|].
  destruct Hkey as [->| ->]; [|done].
  rewrite decide_True by done. simpl. eauto.
Qed.

Lemma copy_items_app (h5f : h5file) (first rest : list (string * h5obj)) (biof : h5file) :
  copy_items h5f (first ++ rest) biof
  = copy_items h5f first biof ≫= copy_items h5f rest.
Proof.
  revert biof. induction first as [|[key value] first IH]; intros biof; simpl; [done|].
  destruct (copy h5f value biof expand_all) as [biof1|e]; simpl; [apply IH|done].
Qed.

(** X12.  Encoding is all or nothing: when the copy of one top-level
    object fails after the objects before it were copied, the encoding
    raises that error and returns no bytes. *)
Theorem encode_stops_at_the_first_failed_copy (h5f : h5file) (save_args : kwargs)
    (fresh dst : h5file) (copied rest : list (string * h5obj)) (key : string)
    (value : h5obj) (e : exn) :
  call_File FromBytesIO (Some "w") save_args = Ok fresh →
  items h5f = (copied ++ (key, value) :: rest)%list →
  copy_items h5f copied fresh = Ok dst →
  copy h5f value dst expand_all = Err e →
  __h5py_to_binary h5f save_args = Err e.
Proof.
  intros Hnew Hitems Hcopied Hfail. unfold __h5py_to_binary.
  rewrite Hnew, Hitems. simpl. rewrite copy_items_app, Hcopied. simpl.
  by rewrite Hfail.
Qed.
End CodecArguments.

(* ===================================================================== *)
(** * More of the chart-artifact builder                                  *)
(* ===================================================================== *)

Section ChartEdges.
Context `{Plotly} `{JSONDataSet}.
Import PlotlyDataSet.

(** X13.  Without a ["type"], or with one that is not a string, figure
    construction raises [TypeError] before the namespace is consulted:
    nothing is called. *)
Theorem kind_must_be_a_string {S : Type} (h : handler S) (s : S) (self : instance)
    (data : DataFrame) :
  (∀ name, _plotly_args self !! "type" ≠ Some (PStr name)) →
  ∃ msg, run h (_plot_dataframe self data) s = ([], Err (Exn TypeError msg), s).
Proof.
  intros Hkind. unfold _plot_dataframe, getattr_px.
  destruct (_plotly_args self !! "type") as [[| | |name| |]|]; simpl; eauto.
  by destruct (Hkind name).
Qed.

(** X14.  A ["fig"] that is not a mapping raises [TypeError] after the
    lookup and before the call: nothing is called. *)
Theorem fig_must_be_a_mapping {S : Type} (h : handler S) (s : S) (self : instance)
    (data : DataFrame) (name : string) (attr : px_attr) (v : pyval) :
  _plotly_args self !! "type" = Some (PStr name) →
  px name = Some attr →
  _plotly_args self !! "fig" = Some v →
  (∀ d, v ≠ PDict d) →
  ∃ msg, run h (_plot_dataframe self data) s = ([], Err (Exn TypeError msg), s).
Proof.
  intros Htype Hattr Hfig Hv. unfold _plot_dataframe, getattr_px.
  rewrite Htype, Hfig. simpl. rewrite Hattr. simpl.
  destruct v; simpl; eauto. by destruct (Hv d).
Qed.

(** X15.  With a chart constructor and a ["fig"] that is absent or a
    mapping, the constructor is called exactly once, with the data and the
    ["fig"] mapping (empty when absent).  Its error, the error of applying
    the theme, and the error of applying the layout each reach the caller
    unchanged. *)
Theorem constructor_called_once_errors_unwrapped {S : Type} (h : handler S) (s : S)
    (self : instance) (data : DataFrame) (name : string)
    (make : DataFrame → kwargs → result Figure) :
  _plotly_args self !! "type" = Some (PStr name) →
  px name = Some (ChartConstructor make) →
  (_plotly_args self !! "fig" = None ∨ ∃ d, _plotly_args self !! "fig" = Some (PDict d)) →
  let theme := default (PStr "plotly") (_plotly_args self !! "theme") in
  trace_of (run h (_plot_dataframe self data) s) = [PxInvoke (PStr name)]
  ∧ (∀ e, make data (fig_params self) = Err e →
          outcome_of (run h (_plot_dataframe self data) s) = Err e)
  ∧ (∀ fig0 e,
       make data (fig_params self) = Ok fig0 →
       update_layout fig0 PNone {[ "template" := theme ]} = Err e →
       outcome_of (run h (_plot_dataframe self data) s) = Err e)
  ∧ (∀ fig0 fig1 e,
       make data (fig_params self) = Ok fig0 →
       update_layout fig0 PNone {[ "template" := theme ]} = Ok fig1 →
       update_layout fig1 (default (PDict ∅) (_plotly_args self !! "layout")) ∅ = Err e →
       outcome_of (run h (_plot_dataframe self data) s) = Err e).
Proof.
  intros Htype Hattr Hfig theme. subst theme.
  unfold _plot_dataframe, getattr_px, fig_params.
  rewrite Htype. simpl. rewrite Hattr. simpl.
  assert (Hunpack : unpack_kwargs (default (PDict ∅) (_plotly_args self !! "fig"))
                    = Ok match _plotly_args self !! "fig" with
                         | Some (PDict d) => d
                         | _ => ∅
                         end).
  { by destruct Hfig as [->|[d ->]]. }
  rewrite Hunpack. simpl.
  destruct (respond h _ s) as [[] s1]. simpl.
  destruct (make data _) as [fig0|e0] eqn:Hmake; simpl;
    [destruct (update_layout fig0 PNone _) as [fig1|e1] eqn:Hfirst; simpl;
       [destruct (update_layout fig1 _ ∅) as [fig2|e2] eqn:Hsecond; simpl|]|];
    (split_and!; [done|..]); intros; simplify_eq; unfold outcome_of; simpl; congruence.
Qed.

(** X16.  The constructor does not look at [plotly_args]: with a kind
    that names no attribute of the namespace the dataset is still built
    whenever the parent builds, and it is the save that fails, with the
    [AttributeError] of the lookup and before the parent's save is
    reached. *)
Theorem unknown_kind_fails_at_save {S : Type} (h : handler S) (s : S)
    (filepath : string) (plotly_args : kwargs) (load_args save_args : option kwargs)
    (version : option Version) (credentials fs_args : option kwargs)
    (base : json_instance) (name : string) (data : DataFrame) :
  JSONDataSet__init__ filepath load_args save_args version credentials fs_args = Ok base →
  plotly_args !! "type" = Some (PStr name) →
  px name = None →
  ∃ self,
    __init__ filepath plotly_args load_args save_args version credentials fs_args = Ok self
    ∧ ∃ msg, run h (_save self data) s = ([], Err (Exn AttributeError msg), s).
Proof.
  intros Hbase Htype Hpx. unfold __init__. rewrite Hbase. simpl.
  eexists. split; [done|].
  unfold _save, _plot_dataframe, getattr_px. simpl. rewrite Htype. simpl.
  rewrite Hpx. simpl. eauto.
Qed.
End ChartEdges.

(* ===================================================================== *)
(** * The further theorems at the sample instance                         *)
(* ===================================================================== *)

Module SampleMore.
Import Sample.

Example local_dataset_built :
  H5pyDataSet.__init__ "data/a.h5" None None None None None = Ok local_dataset.
Proof. by vm_compute. Qed.

Example plain_s3_dataset_built :
  H5pyDataSet.__init__ "s3://bucket/a.h5" None None None None
    (Some (delete "open_args_save" ∅))
  = Ok plain_s3_dataset.
Proof. by vm_compute. Qed.

Example odd_load_dataset_built :
  H5pyDataSet.__init__ "s3://bucket/a.h5" None None None None
    (Some {[ "open_args_load" := PInt 7 ]})
  = Ok odd_load_dataset.
Proof. by vm_compute. Qed.

(** Local files get [auto_mkdir]; the credentials reach the S3 filesystem
    and the nested [open_args_save] does not. *)
Lemma filesystem_gets_credentials_and_fs_args_witness :
  fs_storage_options (H5pyDataSet._fs local_dataset) !! "auto_mkdir" = Some (PBool true)
  ∧ fs_storage_options (H5pyDataSet._fs s3_dataset) !! "secret" = Some (PStr "hunter2")
  ∧ fs_storage_options (H5pyDataSet._fs s3_dataset) !! "open_args_save" = None.
Proof.
  destruct (@filesystem_gets_credentials_and_fs_args core fsspec _ _ _ _ _ _ _ local_dataset_built)
    as (_ & _ & _ & _ & _ & Hauto).
  destruct (@filesystem_gets_credentials_and_fs_args core fsspec _ _ _ _ _ _ _
              SampleFacts.s3_dataset_built)
    as (_ & Hcredentials & _ & Hnested & _).
  split_and!.
  - by apply Hauto.
  - apply Hcredentials. by vm_compute.
  - rewrite Hnested by (by right). by vm_compute.
Defined.

(** [auto_mkdir] in the credentials of a local dataset. *)
Lemma init_rejects_keys_given_twice_witness :
  ∃ msg, H5pyDataSet.__init__ "data/a.h5" None None None
           (Some {[ "auto_mkdir" := PBool false ]}) None
         = Err (Exn TypeError msg).
Proof.
  apply (@init_rejects_keys_given_twice core fsspec "data/a.h5" None None None
           (Some {[ "auto_mkdir" := PBool false ]}) None "file" "data/a.h5" "auto_mkdir").
  - by vm_compute.
  - exists (PBool false). by vm_compute.
  - by right.
Defined.

(** [open_args_save: "wb"], a string where a mapping is expected. *)
Lemma init_rejects_non_mapping_open_args_save_witness :
  ∃ msg, H5pyDataSet.__init__ "s3://bucket/a.h5" None None None None
           (Some (<["open_args_save" := PStr "wb"]> ∅))
         = Err (Exn AttributeError msg).
Proof.
  apply (@init_rejects_non_mapping_open_args_save core fsspec "s3://bucket/a.h5" None None None None
           ∅ (PStr "wb") plain_s3_dataset); [done|].
  apply plain_s3_dataset_built.
Defined.

(** [open_args_load: 7] is built, and fails at the first load. *)
Lemma load_rejects_non_mapping_open_args_witness :
  ∃ msg, run memory (H5pyDataSet._load odd_load_dataset) empty_world
         = ([GetLoadPath "bucket/a.h5" None], Err (Exn TypeError msg), empty_world).
Proof.
  assert (Hodd : ∀ d, H5pyDataSet._fs_open_args_load odd_load_dataset ≠ PDict d) by done.
  destruct (@load_rejects_non_mapping_open_args core h5py world memory empty_world
              odd_load_dataset Hodd)
    as (_ & _ & Hresolved).
  apply (Hresolved "bucket/a.h5" empty_world). by vm_compute.
Defined.


(** Behind a connection that drops after the open, the load and the save
    both fail, and both close the stream they opened. *)
Lemma streams_are_closed_witness :
  run dropping (H5pyDataSet._load s3_dataset) stored_world
  = ([GetLoadPath "bucket/a.h5" None;
      FsOpen (mkFs "s3" aws_credentials) "bucket/a.h5" ∅; FsRead 0; FsClose 0],
     Err (Exn OSError "Connection reset"), stored_world_open)
  ∧ run dropping (H5pyDataSet._save s3_dataset two_objects) empty_world
    = ((GetSavePath "bucket/a.h5" None :: critical_section H5pyDataSet._lock ToBinary)
       ++ [FsOpen (mkFs "s3" aws_credentials) "bucket/a.h5"
             (H5pyDataSet._fs_open_args_save s3_dataset);
           FsWrite 0 two_objects_encoded; FsClose 0],
       Err (Exn OSError "Connection reset"),
       mkWorld {[ "bucket/a.h5" := [] ]} [mkStream "bucket/a.h5" true []] [])%list.
Proof.
  destruct (@streams_are_closed core h5py world dropping stored_world s3_dataset two_objects)
    as (_ & _ & Hload & _).
  destruct (@streams_are_closed core h5py world dropping empty_world s3_dataset two_objects)
    as (_ & _ & _ & Hsave).
  split.
  - apply (proj2 (proj2 (Hload stored_world "bucket/a.h5" ∅ eq_refl eq_refl eq_refl eq_refl))
             0 stored_world_open (Exn OSError "Connection reset")
             stored_world_open stored_world_open); by vm_compute.
  - apply (proj2 (proj2 (Hsave empty_world "bucket/a.h5" two_objects_encoded
                           eq_refl eq_refl eq_refl eq_refl))
             0 (mkWorld ∅ [mkStream "bucket/a.h5" true []] [])
             (Exn OSError "Connection reset")
             (mkWorld ∅ [mkStream "bucket/a.h5" true []] [])
             (mkWorld {[ "bucket/a.h5" := [] ]} [mkStream "bucket/a.h5" true []] []));
      by vm_compute.
Defined.

(** The save of the two-object container writes its encoding; the save of
    the container with a repeated name writes nothing. *)
Lemma save_writes_the_encoding_witness :
  H5pyDataSet.__h5py_to_binary two_objects (H5pyDataSet._save_args s3_dataset)
    = Ok two_objects_encoded
  ∧ Forall (λ ev, is_stream_io ev = false ∧ is_cache_invalidation ev = false)
      (trace_of (run memory (H5pyDataSet._save s3_dataset clashing_objects) empty_world)).
Proof.
  split.
  - apply (proj1 (@save_writes_the_encoding core h5py world memory empty_world s3_dataset
                    two_objects) 0).
    vm_compute. repeat first [apply list_elem_of_here | apply list_elem_of_further].
  - apply (proj2 (@save_writes_the_encoding core h5py world memory empty_world s3_dataset
                    clashing_objects)
             (Exn ValueError "Destination object already exists")).
    by vm_compute.
Defined.


(** [load_args = {"mode": "r+"}] cannot reopen the image for writing. *)
Lemma decode_opens_read_only_in_memory_witness :
  ∃ msg, H5pyDataSet.__h5py_from_binary two_objects_image {[ "mode" := PStr "r+" ]}
         = Err (Exn TypeError msg).
Proof.
  apply (proj1 (proj2 (@decode_opens_read_only_in_memory h5py two_objects_image
                         {[ "mode" := PStr "r+" ]}))
           "mode" two_objects).
  - apply list_elem_of_here.
  - exists (PStr "r+"). by vm_compute.
  - done.
  - by vm_compute.
Defined.

(** [save_args = {"mode": "a"}]. *)
Lemma encode_rejects_mode_and_name_witness :
  ∃ msg, H5pyDataSet.__h5py_to_binary two_objects {[ "mode" := PStr "a" ]}
         = Err (Exn TypeError msg).
Proof.
  apply (@encode_rejects_mode_and_name h5py two_objects {[ "mode" := PStr "a" ]} "mode").
  - by left.
  - exists (PStr "a"). by vm_compute.
Defined.

(** The second object repeats the first one's name: its copy is refused,
    and so is the whole encoding. *)
Lemma encode_stops_at_the_first_failed_copy_witness :
  H5pyDataSet.__h5py_to_binary clashing_objects ∅
  = Err (Exn ValueError "Destination object already exists").
Proof.
  apply (@encode_stops_at_the_first_failed_copy h5py clashing_objects ∅ []
           [mkToy x61 x01 false]
           [("a", mkToy x61 x01 false)] [("c", mkToy x63 x03 false)]
           "a" (mkToy x61 x02 false)); by vm_compute.
Defined.

(** A chart specification with no kind at all. *)
Lemma kind_must_be_a_string_witness :
  ∃ msg, run memory (PlotlyDataSet._plot_dataframe (chart ∅) df) empty_world
         = ([], Err (Exn TypeError msg), empty_world).
Proof. by apply (@kind_must_be_a_string plotly json world memory empty_world (chart ∅) df). Defined.

(** [fig: "x"], a string where a mapping is expected. *)
Lemma fig_must_be_a_mapping_witness :
  ∃ msg,
    run memory
      (PlotlyDataSet._plot_dataframe (chart {[ "type" := PStr "bar"; "fig" := PStr "x" ]}) df)
      empty_world
    = ([], Err (Exn TypeError msg), empty_world).
Proof.
  apply (@fig_must_be_a_mapping plotly json world memory empty_world
           (chart {[ "type" := PStr "bar"; "fig" := PStr "x" ]}) df
           "bar" (ChartConstructor (express "bar")) (PStr "x")); by vm_compute.
Defined.

(** A bar chart over a column the data does not have: one call, and the
    constructor's own error. *)
Lemma constructor_called_once_errors_unwrapped_witness :
  let spec := chart {[ "type" := PStr "bar"; "fig" := PDict {[ "x" := PStr "nope" ]} ]} in
  trace_of (run memory (PlotlyDataSet._plot_dataframe spec df) empty_world)
    = [PxInvoke (PStr "bar")]
  ∧ outcome_of (run memory (PlotlyDataSet._plot_dataframe spec df) empty_world)
    = Err (Exn ValueError "Value of argument is not the name of a column").
Proof.
  intros spec.
  destruct (@constructor_called_once_errors_unwrapped plotly json world memory
              empty_world spec df
              "bar" (express "bar"))
    as (Htrace & Hmake & _); [by vm_compute|by vm_compute| |].
  - right. by exists {[ "x" := PStr "nope" ]}.
  - split; [done|]. apply Hmake. by vm_compute.
Defined.

(** The specification's unknown kind: built, and refused by the save. *)
Lemma unknown_kind_fails_at_save_witness :
  ∃ self,
    PlotlyDataSet.__init__ "plot.json" {[ "type" := PStr "not_a_chart" ]}
      None None None None None = Ok self
    ∧ ∃ msg, run memory (PlotlyDataSet._save self df) empty_world
             = ([], Err (Exn AttributeError msg), empty_world).
Proof.
  apply (@unknown_kind_fails_at_save plotly json world memory empty_world "plot.json"
           {[ "type" := PStr "not_a_chart" ]} None None None None None
           local_json "not_a_chart" df); by vm_compute.
Defined.

End SampleMore.
